(** * Fingerprint ingestion, calibration and metadata merge

    A shallow embedding of [ml/train_isolation_forest.py] and
    [ml/compute_stats.py].  Python values are modelled by inductive types,
    exceptions by an error monad, the disk by a finite map from paths to
    the content of the file, reading in text mode by the stream of lines
    the iterator delivers, and floating-point numbers by exact rationals
    (rounding, NaN and infinities are not modelled). *)

From Stdlib Require Import ZArith QArith Qround Lqa List Sorted Ascii String Lia Bool.
From stdpp Require Import base option list gmap strings.
Import ListNotations.

Local Set Warnings "-register-all".
Local Open Scope string_scope.

(** ** Python values and exceptions *)

(** The exception classes the two scripts can meet. *)
Inductive exn : Type :=
| JSONDecodeError
| KeyError
| AttributeError
| TypeError
| ValueError
| FileNotFoundError
| UnicodeDecodeError.

(** A computation either returns or raises. *)
Inductive outcome (A : Type) : Type :=
| Ok (a : A)
| Raise (e : exn).
Arguments Ok {A} a.
Arguments Raise {A} e.

#[global] Instance outcome_ret : MRet outcome := fun A a => Ok a.
#[global] Instance outcome_bind : MBind outcome := fun A B f m =>
  match m with
  | Ok a => f a
  | Raise e => Raise e
  end.

(** What [json.loads] returns: [None], [bool], a number, [str], [list],
    [dict].  Numbers are exact rationals. *)
Inductive json : Type :=
| JNull
| JBool (b : bool)
| JNum (q : Q)
| JStr (s : string)
| JArr (items : list json)
| JObj (fields : gmap string json).

(** Python's truth value of a decoded JSON value, as tested by
    [if block_vectors:]. *)
Definition truthy (v : json) : bool :=
  match v with
  | JNull => false
  | JBool b => b
  | JNum q => negb (Qeq_bool q 0)
  | JStr s => negb (String.eqb s "")
  | JArr items => negb (Nat.eqb (length items) 0)
  | JObj fields => negb (Nat.eqb (size fields) 0)
  end.

(** [record.get(key, default)]: only a [dict] has the method; on any other
    value the attribute lookup raises [AttributeError]. *)
Definition dict_get (record : json) (key : string) (dflt : json) : outcome json :=
  match record with
  | JObj fields => Ok (default dflt (fields !! key))
  | _ => Raise AttributeError
  end.

(** [d[key] = value]: item assignment with a string key works on a [dict];
    on every other decoded value it raises [TypeError]. *)
Definition dict_set (d : json) (key : string) (value : json) : outcome json :=
  match d with
  | JObj fields => Ok (JObj (<[key := value]> fields))
  | _ => Raise TypeError
  end.

(** [str.strip()] for the ASCII white space characters; the white space
    outside ASCII that Python also strips is left to the decoder, which
    accepts white space around a document anyway. *)
Definition is_space (c : ascii) : bool :=
  let n := nat_of_ascii c in
  ((9 <=? n)%nat && (n <=? 13)%nat) || ((28 <=? n)%nat && (n <=? 32)%nat).

Fixpoint lstrip (s : string) : string :=
  match s with
  | String c rest => if is_space c then lstrip rest else s
  | EmptyString => EmptyString
  end.

Fixpoint rstrip (s : string) : string :=
  match s with
  | String c rest =>
      match rstrip rest with
      | EmptyString => if is_space c then EmptyString else String c EmptyString
      | kept => String c kept
      end
  | EmptyString => EmptyString
  end.

Definition strip (s : string) : string := rstrip (lstrip s).

(** ** numpy arrays *)

(** A one-dimensional array after [flatten()].  An array of numbers keeps
    its elements; an array whose leaves are not all JSON numbers (numpy
    gives it a [str], [bool] or [object] dtype) keeps only its length. *)
Inductive ndarray : Type :=
| NumArr (data : list Q)
| ObjArr (len : nat).

Definition np_len (a : ndarray) : nat :=
  match a with
  | NumArr data => length data
  | ObjArr len => len
  end.

(** Shape discovery of [np.array]: a list adds a dimension when all its
    items have one common shape; anything else is a scalar.  [None] stands
    for an inhomogeneous (ragged) nesting. *)
Fixpoint np_shape (v : json) : option (list nat) :=
  match v with
  | JArr items =>
      match map np_shape items with
      | [] => Some [0%nat]
      | s :: rest =>
          if forallb (fun s' => bool_decide (s' = s)) rest
          then option_map (cons (length items)) s
          else None
      end
  | _ => Some []
  end.

(** The scalars of a nested list in row-major order. *)
Fixpoint np_leaves (v : json) : list json :=
  match v with
  | JArr items => flat_map np_leaves items
  | _ => [v]
  end.

Definition leaf_number (v : json) : option Q :=
  match v with
  | JNum q => Some q
  | _ => None
  end.

Fixpoint all_numbers (leaves : list json) : option (list Q) :=
  match leaves with
  | [] => Some []
  | v :: rest =>
      match leaf_number v, all_numbers rest with
      | Some q, Some qs => Some (q :: qs)
      | _, _ => None
      end
  end.

(** [np.array(v).flatten()].  A ragged nesting raises [ValueError] (numpy
    1.24 and later: "inhomogeneous shape"). *)
Definition np_array_flatten (v : json) : outcome ndarray :=
  match np_shape v with
  | None => Raise ValueError
  | Some _ =>
      match all_numbers (np_leaves v) with
      | Some data => Ok (NumArr data)
      | None => Ok (ObjArr (length (np_leaves v)))
      end
  end.

(** [np.pad(flat, (0, n), mode='constant')]: [n] zeros on the right. *)
Definition np_pad_right (flat : ndarray) (n : nat) : ndarray :=
  match flat with
  | NumArr data => NumArr (data ++ repeat 0%Q n)
  | ObjArr len => ObjArr (len + n)
  end.

(** [flat[:n]]. *)
Definition np_take (flat : ndarray) (n : nat) : ndarray :=
  match flat with
  | NumArr data => NumArr (firstn n data)
  | ObjArr len => ObjArr (Nat.min n len)
  end.

(** ** The vectorizer

    Lines 34-41 of [load_training_data], repeated as lines 21-27 of
    [compute_stats.main]: pad or truncate the flattened block to 96
    entries.  [None] is the record that contributes no vector. *)
Definition pad_or_truncate (flat : ndarray) : ndarray :=
  if (np_len flat <? 96)%nat then np_pad_right flat (96 - np_len flat)
  else if (96 <? np_len flat)%nat then np_take flat 96
  else flat.

Definition vectorize (block_vectors : json) : outcome (option ndarray) :=
  if truthy block_vectors then
    flat ← np_array_flatten block_vectors;
    Ok (Some (pad_or_truncate flat))
  else Ok None.

(** A sequence of numeric sub-vectors, and a flat sequence of numbers, as
    the decoded JSON the vectorizer receives. *)
Definition nested_json (vs : list (list Q)) : json :=
  JArr (map (fun v => JArr (map JNum v)) vs).

Definition flat_json (data : list Q) : json := JArr (map JNum data).

(** ** Score statistics (numpy reductions over a one-dimensional array) *)

Definition np_sum (scores : list Q) : Q := fold_right Qplus 0%Q scores.

(** [np.mean], as the exact quotient; the rounding of the floating-point
    sum and division is not modelled. *)
Definition np_mean (scores : list Q) : Q :=
  (np_sum scores / inject_Z (Z.of_nat (length scores)))%Q.

Definition Qmin_b (a b : Q) : Q := if Qle_bool a b then a else b.
Definition Qmax_b (a b : Q) : Q := if Qle_bool a b then b else a.

(** [np.min] and [np.max] of an array with first element [x]. *)
Definition np_min (x : Q) (xs : list Q) : Q := fold_right Qmin_b x xs.
Definition np_max (x : Q) (xs : list Q) : Q := fold_right Qmax_b x xs.

(** The order statistics [np.percentile] selects from (it partitions a
    copy of the array around the indices it needs). *)
Fixpoint insert_sorted (x : Q) (arr : list Q) : list Q :=
  match arr with
  | [] => [x]
  | y :: rest => if Qle_bool x y then x :: arr else y :: insert_sorted x rest
  end.

Definition np_sort (scores : list Q) : list Q :=
  fold_right insert_sorted [] scores.

(** [arr[i]] with Python's negative indices. *)
Definition py_index (arr : list Q) (i : Z) : Q :=
  if (i <? 0)%Z then nth (Z.to_nat (Z.of_nat (length arr) + i)) arr 0%Q
  else nth (Z.to_nat i) arr 0%Q.

(** [numpy.lib.function_base._lerp]: the second form is used from the
    middle of the interval on. *)
Definition lerp (a b t : Q) : Q :=
  if Qle_bool (1 # 2) t then (b - (b - a) * (1 - t))%Q
  else (a + (b - a) * t)%Q.

(** The tail of [numpy]'s [_quantile] for one virtual index into the
    sorted array: the neighbouring indices (clamped at both ends, [-1]
    standing for the last element), the weight [gamma], and the
    interpolation. *)
Definition interpolate (arr : list Q) (virtual_index : Q) : Q :=
  let values_count := inject_Z (Z.of_nat (length arr)) in
  let above_bounds := Qle_bool (values_count - 1) virtual_index in
  let below_bounds := negb (Qle_bool 0 virtual_index) in
  let previous_index :=
    if below_bounds then 0%Z
    else if above_bounds then (-1)%Z
    else Qfloor virtual_index in
  let next_index :=
    if below_bounds then 0%Z
    else if above_bounds then (-1)%Z
    else (Qfloor virtual_index + 1)%Z in
  let gamma := (virtual_index - inject_Z previous_index)%Q in
  lerp (py_index arr previous_index) (py_index arr next_index) gamma.

(** [np.percentile(scores, q)] with the default method, [linear]: the
    virtual index of the quantile [q / 100] is [(n - 1) * q / 100]. *)
Definition np_percentile (scores : list Q) (q : Q) : Q :=
  let arr := np_sort scores in
  let values_count := inject_Z (Z.of_nat (length arr)) in
  let quantile := (q / 100)%Q in
  interpolate arr ((values_count - 1) * quantile)%Q.

(** The dictionary [compute_threshold_stats] returns. *)
Record score_stats : Type := {
  stat_mean : Q;
  stat_std : Q;
  stat_min : Q;
  stat_max : Q;
  stat_p50 : Q;
  stat_p90 : Q;
  stat_p95 : Q;
  stat_p99 : Q
}.

Definition stats_json (s : score_stats) : json :=
  JObj (list_to_map
    [("mean", JNum (stat_mean s)); ("std", JNum (stat_std s));
     ("min", JNum (stat_min s)); ("max", JNum (stat_max s));
     ("p50", JNum (stat_p50 s)); ("p90", JNum (stat_p90 s));
     ("p95", JNum (stat_p95 s)); ("p99", JNum (stat_p99 s))]).

(** ** The collaborators outside the repository *)

(** The keyword arguments of the [IsolationForest] constructor. *)
Record forest_params : Type := {
  n_estimators : Z;
  contamination : Q;
  max_samples_param : string;
  max_features : Q;
  bootstrap : bool;
  n_jobs : Z;
  random_state : Z;
  verbose : Z
}.

(** How iterating over a file opened in text mode ends: with the end of
    the file, or with [UnicodeDecodeError] when the next bytes to decode
    are not text in the locale's encoding. *)
Inductive stream_end : Type :=
| Exhausted
| Undecodable.

(** What [for line in f] delivers for a file opened with
    [open(path, 'r')]: the lines it yields one after the other, line
    ends translated, and how the iteration ends after them. *)
Record text_stream : Type := {
  yielded : list string;
  ending : stream_end
}.

(** Library calls whose results the scripts only pass along: text-mode
    reading (which depends on the encoding of the locale, on the
    translation of line ends and on the size of the chunks that are
    decoded), the JSON codec, the scoring model, the square root behind
    [np.std], the per-column reductions of [compute_stats], the clock and
    [pathlib]. *)
Class Externals : Type := {
  open_text : string -> text_stream;
  json_loads : string -> outcome json;
  json_dumps : json -> string;
  model : Type;
  fit : forest_params -> list ndarray -> outcome model;
  score_samples : model -> list ndarray -> outcome (list Q);
  joblib_dumps : model -> string;
  np_std : list Q -> Q;
  mean_axis0_tolist : list ndarray -> outcome json;
  std_axis0_tolist : list ndarray -> outcome json;
  utcnow_isoformat : string;
  with_suffix_json : string -> string
}.

(** ** Files *)

Abbreviation files := (gmap string string).

(** [open(path, 'r')]: the content of the file, or [FileNotFoundError].
    The content is handed to [open_text] when the file is iterated and to
    [json_loads] when [json.load] reads it. *)
Definition read_text (fs : files) (path : string) : outcome string :=
  match fs !! path with
  | Some text => Ok text
  | None => Raise FileNotFoundError
  end.

Definition newline : ascii := ascii_of_nat 10.

(** What a script does to the disk, in order.  [open(path, 'w')] truncates
    the file at once; the text arrives afterwards. *)
Inductive io : Type :=
| Truncate (path : string)
| Append (path : string) (text : string).

Definition apply_io (fs : files) (e : io) : files :=
  match e with
  | Truncate path => <[path := ""]> fs
  | Append path text => <[path := default "" (fs !! path) ++ text]> fs
  end.

Definition replay (fs : files) (events : list io) : files :=
  fold_left apply_io events fs.

(** The disk states a reader can meet while [events] are carried out: one
    per prefix of the events. *)
Definition visible_states (fs : files) (events : list io) : list files :=
  map (fun n => replay fs (firstn n events)) (seq 0 (S (length events))).

(** The reading of atomic persistence: whatever state of the disk a
    reader meets while [events] are carried out, the file at [path] is
    either as before or as after. *)
Definition written_atomically (fs : files) (events : list io) (path : string) : Prop :=
  forall st : files,
    In st (visible_states fs events) ->
    st !! path = fs !! path \/ st !! path = replay fs events !! path.

(** ** The ingestion loop shared by both scripts *)

Section Ingestion.
Context `{Externals}.

(** The body of the [try] block. *)
Definition read_record (line : string) : outcome (option ndarray) :=
  record ← json_loads (strip line);
  block_vectors ← dict_get record "vectors" (JArr []);
  vectorize block_vectors.

(** [for i, line in enumerate(f)] with its [break], [try] and
    [continue]; [caught] is the [except] clause and [cap] the bound on
    [i].  The [for] statement fetches the next line before the body
    tests [i]; it stands outside the [try], so a fetch that cannot be
    decoded raises out of the loop whatever the [except] clause lists. *)
Fixpoint read_fingerprints (caught : exn -> bool) (cap : Z) (i : Z)
    (lines : list string) (last : stream_end) (vectors : list ndarray)
  : outcome (list ndarray) :=
  match lines with
  | [] =>
      match last with
      | Exhausted => Ok vectors
      | Undecodable => Raise UnicodeDecodeError
      end
  | line :: rest =>
      if (i >=? cap)%Z then Ok vectors
      else
        match read_record line with
        | Ok (Some flat) =>
            read_fingerprints caught cap (i + 1) rest last (vectors ++ [flat])
        | Ok None => read_fingerprints caught cap (i + 1) rest last vectors
        | Raise e =>
            if caught e then read_fingerprints caught cap (i + 1) rest last vectors
            else Raise e
        end
  end.

(** The iteration gets through the first [n] lines and the fetch after
    them: either there is a further line, or the file ends there. *)
Definition fetches_through (n : nat) (f : text_stream) : Prop :=
  (n < length (yielded f))%nat \/ ending f = Exhausted.
End Ingestion.

(** ** [ml/train_isolation_forest.py] *)

Module TrainIsolationForest.
Section Script.
Context `{Externals}.

(** [except (json.JSONDecodeError, KeyError)] *)
Definition caught (e : exn) : bool :=
  match e with
  | JSONDecodeError | KeyError => true
  | _ => false
  end.

Definition load_training_data (fs : files) (input_path : string)
    (max_samples : Z) : outcome (list ndarray) :=
  content ← read_text fs input_path;
  let f := open_text content in
  read_fingerprints caught max_samples 0 (yielded f) (ending f) [].

Definition train_model (X : list ndarray) (contamination : Q) : outcome model :=
  fit {| n_estimators := 100;
         contamination := contamination;
         max_samples_param := "auto";
         max_features := 1;
         bootstrap := false;
         n_jobs := -1;
         random_state := 42;
         verbose := 1 |} X.

(** The model file, then the metadata file, each opened for writing and
    written.  Directories are not modelled, and neither is a write that
    fails. *)
Definition export_model (m : model) (output_path : string) (metadata : json)
  : list io :=
  let model_path := output_path in
  let meta_path := with_suffix_json output_path in
  [Truncate model_path; Append model_path (joblib_dumps m);
   Truncate meta_path; Append meta_path (json_dumps metadata)].

(** [np.min] of an empty array raises [ValueError]. *)
Definition compute_threshold_stats (m : model) (X : list ndarray)
  : outcome score_stats :=
  raw ← score_samples m X;
  let scores := map Qopp raw in
  match scores with
  | [] => Raise ValueError
  | x :: xs =>
      Ok {| stat_mean := np_mean scores;
            stat_std := np_std scores;
            stat_min := np_min x xs;
            stat_max := np_max x xs;
            stat_p50 := np_percentile scores 50;
            stat_p90 := np_percentile scores 90;
            stat_p95 := np_percentile scores 95;
            stat_p99 := np_percentile scores 99 |}
  end.

(** The command line: an option is [None] when the caller leaves it out. *)
Record cli : Type := {
  cli_input : option string;
  cli_output : option string;
  cli_contamination : option Q;
  cli_max_samples : option Z
}.

Record args : Type := {
  args_input : string;
  args_output : string;
  args_contamination : Q;
  args_max_samples : Z
}.

Definition parse_args (c : cli) : args :=
  {| args_input := default "artifacts/training/foldedVectors.jsonl" (cli_input c);
     args_output := default "ml/models/isolation_forest.joblib" (cli_output c);
     args_contamination := default (5 # 100) (cli_contamination c);
     args_max_samples := default 50000%Z (cli_max_samples c) |}.

Definition build_metadata (a : args) (X : list ndarray) (stats : score_stats)
  : gmap string json :=
  list_to_map
    [("model_type", JStr "IsolationForest");
     ("trained_at", JStr utcnow_isoformat);
     ("input_dims", JNum 96);
     ("n_estimators", JNum 100);
     ("contamination", JNum (args_contamination a));
     ("training_samples", JNum (inject_Z (Z.of_nat (length X))));
     ("score_stats", stats_json stats);
     ("threshold_suggestion", JNum (stat_p95 stats))].

(** [main]: what is written to the disk, and the exit status or the
    exception that ends the run. *)
Definition main (c : cli) (fs : files) : list io * outcome Z :=
  let a := parse_args c in
  match load_training_data fs (args_input a) (args_max_samples a) with
  | Raise e => ([], Raise e)
  | Ok X =>
      if (length X <? 100)%nat then ([], Ok 1%Z)
      else
        match train_model X (args_contamination a) with
        | Raise e => ([], Raise e)
        | Ok m =>
            match compute_threshold_stats m X with
            | Raise e => ([], Raise e)
            | Ok stats =>
                let metadata := JObj (build_metadata a X stats) in
                (export_model m (args_output a) metadata, Ok 0%Z)
            end
        end
  end.

End Script.
End TrainIsolationForest.

(** ** [ml/compute_stats.py] *)

Module ComputeStats.
Section Script.
Context `{Externals}.

Definition input_path : string := "artifacts/training/foldedVectors.jsonl".
Definition metadata_path : string := "ml/models/isolation_forest.json".

(** The bare [except:] catches every exception. *)
Definition caught (e : exn) : bool := true.

(** Lines 13-31: the loop stops at [i >= 30000]. *)
Definition load_fingerprints (fs : files) : outcome (list ndarray) :=
  content ← read_text fs input_path;
  let f := open_text content in
  read_fingerprints caught 30000 0 (yielded f) (ending f) [].

(** Lines 39-43: read the metadata and set the two fields. *)
Definition merge (fs : files) (mean_vector std_vector : json) : outcome json :=
  text ← read_text fs metadata_path;
  metadata ← json_loads text;
  metadata ← dict_set metadata "mean_vector" mean_vector;
  dict_set metadata "std_vector" std_vector.

(** Lines 45-46: [with open(metadata_path, 'w') as f: json.dump(...)]. *)
Definition persist (metadata : json) : list io :=
  [Truncate metadata_path; Append metadata_path (json_dumps metadata)].

(** [main] up to and including the write (lines 8-46).  The printing
    that follows (lines 48-50) touches no file and is not modelled; it
    can still end the run in an exception after the metadata file was
    rewritten. *)
Definition main (fs : files) : list io * outcome json :=
  match
    X ← load_fingerprints fs;
    mean_vector ← mean_axis0_tolist X;
    std_vector ← std_axis0_tolist X;
    merge fs mean_vector std_vector
  with
  | Raise e => ([], Raise e)
  | Ok metadata => (persist metadata, Ok metadata)
  end.

End Script.
End ComputeStats.

(** ** A concrete collaborator instance for worked examples *)

Module Fixture.

Definition dq : string := String (ascii_of_nat 34) EmptyString.
Definition nl : string := String newline EmptyString.

(** [{"vectors": [[1, 2], [3, 4]]}] *)
Definition line_grid : string :=
  "{" ++ dq ++ "vectors" ++ dq ++ ": [[1, 2], [3, 4]]}".

(** [{"vectors": [[1]]}] *)
Definition line_single : string := "{" ++ dq ++ "vectors" ++ dq ++ ": [[1]]}".

(** [[1, 2]]: valid JSON, but a list and not an object. *)
Definition line_list : string := "[1, 2]".

(** Not JSON at all. *)
Definition line_garbage : string := "{not json".

(** [{"model_type": "IsolationForest", "input_dims": 96}] *)
Definition old_metadata_text : string :=
  "{" ++ dq ++ "model_type" ++ dq ++ ": " ++ dq ++ "IsolationForest" ++ dq
  ++ ", " ++ dq ++ "input_dims" ++ dq ++ ": 96}".

(** [json.loads] on the texts above; every other text is taken to be
    undecodable. *)
Definition loads (text : string) : outcome json :=
  if String.eqb text line_grid then
    Ok (JObj {[ "vectors" :=
                  JArr [JArr [JNum 1; JNum 2]; JArr [JNum 3; JNum 4]] ]})
  else if String.eqb text line_single then
    Ok (JObj {[ "vectors" := JArr [JArr [JNum 1]] ]})
  else if String.eqb text line_list then Ok (JArr [JNum 1; JNum 2])
  else if String.eqb text old_metadata_text then
    Ok (JObj (<["model_type" := JStr "IsolationForest"]>
              {[ "input_dims" := JNum 96 ]}))
  else Raise JSONDecodeError.

(** A line that is not text in UTF-8: the byte 255 occurs in no UTF-8
    text. *)
Definition invalid_byte : ascii := ascii_of_nat 255.
Definition line_invalid : string := String invalid_byte EmptyString.

Definition carriage_return : ascii := ascii_of_nat 13.

Fixpoint has_invalid_byte (content : string) : bool :=
  match content with
  | EmptyString => false
  | String c rest => Ascii.eqb c invalid_byte || has_invalid_byte rest
  end.

(** The lines of a text with universal newlines: a line ends at a line
    feed, at a carriage return, or at the two in a row, and is delivered
    with a line feed at its end. *)
Fixpoint universal_lines (after_cr : bool) (content : string) : list string :=
  match content with
  | EmptyString => []
  | String c rest =>
      if Ascii.eqb c newline then
        if after_cr then universal_lines false rest
        else nl :: universal_lines false rest
      else if Ascii.eqb c carriage_return then nl :: universal_lines true rest
      else
        match universal_lines false rest with
        | [] => [String c EmptyString]
        | line :: others => String c line :: others
        end
  end.

(** A stand-in for text-mode reading in UTF-8: a file without the byte
    255 is read as its lines; a file that holds the byte cannot be
    decoded, and the first fetch raises, as it does for a file that fits
    in one read chunk. *)
Definition read_lines (content : string) : text_stream :=
  if has_invalid_byte content
  then {| yielded := []; ending := Undecodable |}
  else {| yielded := universal_lines false content; ending := Exhausted |}.

(** Whether a line holds no line end. *)
Fixpoint plain_line (line : string) : bool :=
  match line with
  | EmptyString => true
  | String c rest =>
      negb (Ascii.eqb c newline) && negb (Ascii.eqb c carriage_return)
      && plain_line rest
  end.

(** A stand-in for [json.dump]: the keys of an object between braces. *)
Definition dumps (v : json) : string :=
  match v with
  | JObj fields =>
      "{" ++ fold_right (fun kv acc => fst kv ++ ";" ++ acc) "}" (map_to_list fields)
  | _ => "null"
  end.

(** A scoring model that gives row [i] the raw score [-(i+1)/100]. *)
Definition scores_of (X : list ndarray) : list Q :=
  map (fun i => (- (Z.of_nat (S i) # 100))%Q) (seq 0 (length X)).

#[export] Instance externals : Externals := {|
  open_text := read_lines;
  json_loads := loads;
  json_dumps := dumps;
  model := unit;
  fit := fun _ _ => Ok tt;
  score_samples := fun _ X => Ok (scores_of X);
  joblib_dumps := fun _ => "model";
  np_std := fun _ => 0%Q;
  mean_axis0_tolist := fun _ => Ok (JArr [JNum 1]);
  std_axis0_tolist := fun _ => Ok (JArr [JNum 0]);
  utcnow_isoformat := "2024-01-01T00:00:00";
  with_suffix_json := fun _ => "ml/models/isolation_forest.json"
|}.

(** A text file made of the given lines. *)
Definition text_of (lines : list string) : string :=
  fold_right (fun line acc => line ++ nl ++ acc) "" lines.

Definition disk (lines : list string) : files :=
  <["artifacts/training/foldedVectors.jsonl" := text_of lines]>
    {[ "ml/models/isolation_forest.json" := old_metadata_text ]}.

(** The metadata of [old_metadata_text] after the statistics script set
    its two fields. *)
Definition merged_metadata : json :=
  JObj (<["std_vector" := JArr [JNum 0]]>
          (<["mean_vector" := JArr [JNum 1]]>
             (<["model_type" := JStr "IsolationForest"]>
                {[ "input_dims" := JNum 96 ]}))).

(** A command line with no option given. *)
Definition no_options : TrainIsolationForest.cli :=
  {| TrainIsolationForest.cli_input := None;
     TrainIsolationForest.cli_output := None;
     TrainIsolationForest.cli_contamination := None;
     TrainIsolationForest.cli_max_samples := None |}.

Definition training_path : string := "artifacts/training/foldedVectors.jsonl".

End Fixture.

(** ** What a source contributes to a dataset *)

Section Contribution.
Context `{Externals}.

(** The vector one line contributes, if any: the result of the [try]
    body when it returns a vector. *)
Definition kept_vector (line : string) : option ndarray :=
  match read_record line with
  | Ok (Some flat) => Some flat
  | _ => None
  end.

(** The vectors of the lines that contribute one, in the order of the
    lines. *)
Definition kept_vectors (lines : list string) : list ndarray :=
  omap kept_vector lines.

End Contribution.

(** A second collaborator instance, whose decoder also reads back the
    text that the stand-in encoder writes for [Fixture.merged_metadata]. *)
Module CodecFixture.

Definition loads (text : string) : outcome json :=
  if String.eqb text (Fixture.dumps Fixture.merged_metadata)
  then Ok Fixture.merged_metadata
  else Fixture.loads text.

Definition externals : Externals := {|
  open_text := Fixture.read_lines;
  json_loads := loads;
  json_dumps := Fixture.dumps;
  model := unit;
  fit := fun _ _ => Ok tt;
  score_samples := fun _ X => Ok (Fixture.scores_of X);
  joblib_dumps := fun _ => "model";
  np_std := fun _ => 0%Q;
  mean_axis0_tolist := fun _ => Ok (JArr [JNum 1]);
  std_axis0_tolist := fun _ => Ok (JArr [JNum 0]);
  utcnow_isoformat := "2024-01-01T00:00:00";
  with_suffix_json := fun _ => "ml/models/isolation_forest.json"
|}.

End CodecFixture.

(** * Properties *)

(** ** The vectorizer *)

Lemma np_shape_JArr (items : list json) :
  np_shape (JArr items) =
  match map np_shape items with
  | [] => Some [0%nat]
  | s :: rest =>
      if forallb (fun s' => bool_decide (s' = s)) rest
      then option_map (cons (length items)) s
      else None
  end.
Proof. reflexivity. Qed.

Lemma np_shape_flat (data : list Q) :
  np_shape (flat_json data) = Some [length data].
Proof.
  unfold flat_json. rewrite np_shape_JArr.
  destruct data as [|q rest]; [reflexivity|].
  cbn [map np_shape].
  assert (Hall : forallb (fun s' : option (list nat) => bool_decide (s' = Some []))
                   (map np_shape (map JNum rest)) = true).
  { induction rest as [|r rest IH]; [reflexivity|].
    cbn [map np_shape forallb]. now rewrite IH. }
  rewrite Hall. cbn. now rewrite length_map.
Qed.

Lemma np_leaves_flat (data : list Q) :
  np_leaves (flat_json data) = map JNum data.
Proof.
  unfold flat_json. cbn [np_leaves].
  induction data as [|q rest IH]; [reflexivity|].
  cbn [map flat_map np_leaves]. now rewrite IH.
Qed.

Lemma all_numbers_map (data : list Q) : all_numbers (map JNum data) = Some data.
Proof.
  induction data as [|q rest IH]; [reflexivity|].
  cbn [map all_numbers leaf_number]. now rewrite IH.
Qed.

Lemma np_array_flatten_flat (data : list Q) :
  np_array_flatten (flat_json data) = Ok (NumArr data).
Proof.
  unfold np_array_flatten.
  now rewrite np_shape_flat, np_leaves_flat, all_numbers_map.
Qed.

Lemma np_leaves_nested (vs : list (list Q)) :
  np_leaves (nested_json vs) = map JNum (concat vs).
Proof.
  unfold nested_json. cbn [np_leaves].
  induction vs as [|v vs IH]; [reflexivity|].
  cbn [map flat_map concat]. rewrite IH, map_app.
  f_equal. apply (np_leaves_flat v).
Qed.

(** Sub-vectors of one common length form a two-dimensional array. *)
Lemma np_shape_nested (vs : list (list Q)) (d : nat) :
  Forall (fun v => length v = d) vs ->
  np_shape (nested_json vs) <> None.
Proof.
  intros Hd. unfold nested_json. rewrite np_shape_JArr.
  destruct vs as [|v vs]; [discriminate|].
  cbn [map]. change (np_shape (JArr (map JNum v))) with (np_shape (flat_json v)).
  rewrite np_shape_flat.
  assert (Hall : forallb (fun s' : option (list nat) => bool_decide (s' = Some [length v]))
                   (map np_shape (map (fun v0 : list Q => JArr (map JNum v0)) vs)) = true).
  { apply Forall_cons_iff in Hd as [Hv Hd]. subst d.
    induction Hd as [|w ws Hw _ IH]; [reflexivity|].
    cbn [map forallb].
    change (np_shape (JArr (map JNum w))) with (np_shape (flat_json w)).
    rewrite np_shape_flat, Hw, IH.
    now rewrite bool_decide_eq_true_2. }
  rewrite Hall. discriminate.
Qed.

Lemma np_array_flatten_nested (vs : list (list Q)) (d : nat) :
  Forall (fun v => length v = d) vs ->
  np_array_flatten (nested_json vs) = Ok (NumArr (concat vs)).
Proof.
  intros Hd. unfold np_array_flatten.
  destruct (np_shape (nested_json vs)) eqn:Hs.
  - now rewrite np_leaves_nested, all_numbers_map.
  - now apply np_shape_nested in Hd.
Qed.

Lemma pad_or_truncate_len (flat : ndarray) : np_len (pad_or_truncate flat) = 96%nat.
Proof.
  unfold pad_or_truncate.
  destruct (Nat.ltb_spec (np_len flat) 96) as [Hlt|Hge].
  - destruct flat as [data|len]; cbn [np_len np_pad_right] in *.
    + rewrite length_app, repeat_length. lia.
    + lia.
  - destruct (Nat.ltb_spec 96 (np_len flat)) as [Hgt|Hle].
    + destruct flat as [data|len]; cbn [np_len np_take] in *.
      * rewrite length_firstn. lia.
      * lia.
    + lia.
Qed.

(** The three cases of the padding rule on an array of numbers. *)
Lemma pad_or_truncate_cases (data : list Q) :
  exists out,
    pad_or_truncate (NumArr data) = NumArr out /\
    length out = 96%nat /\
    ((length data < 96)%nat -> out = (data ++ repeat 0%Q (96 - length data))%list) /\
    ((96 < length data)%nat -> out = firstn 96 data) /\
    (length data = 96%nat -> out = data).
Proof.
  pose proof (pad_or_truncate_len (NumArr data)) as Hlen.
  unfold pad_or_truncate in *. cbn [np_len] in *.
  destruct (Nat.ltb_spec (length data) 96) as [Hlt|Hge].
  - eexists. split; [reflexivity|]. cbn [np_pad_right np_len] in Hlen.
    repeat split; [exact Hlen | lia | lia].
  - destruct (Nat.ltb_spec 96 (length data)) as [Hgt|Hle].
    + eexists. split; [reflexivity|]. cbn [np_take np_len] in Hlen.
      repeat split; [exact Hlen | lia | lia].
    + exists data. repeat split; lia.
Qed.

Lemma truthy_nested (vs : list (list Q)) :
  truthy (nested_json vs) = negb (Nat.eqb (length vs) 0).
Proof. unfold nested_json. cbn [truthy]. now rewrite length_map. Qed.

Lemma vectorize_nested (vs : list (list Q)) (d : nat) :
  vs <> [] ->
  Forall (fun v => length v = d) vs ->
  vectorize (nested_json vs) = Ok (Some (pad_or_truncate (NumArr (concat vs)))).
Proof.
  intros Hne Hd. unfold vectorize.
  rewrite truthy_nested. destruct vs as [|v vs]; [contradiction|].
  cbn [length Nat.eqb negb].
  now rewrite (np_array_flatten_nested _ d Hd).
Qed.

(** A flat sequence of exactly 96 numbers comes back as it is. *)
Lemma vectorize_flat_96 (data : list Q) :
  length data = 96%nat ->
  vectorize (flat_json data) = Ok (Some (NumArr data)).
Proof.
  intros Hlen. unfold vectorize, flat_json at 1. cbn [truthy].
  rewrite length_map, Hlen. cbn [Nat.eqb negb].
  rewrite np_array_flatten_flat. cbn [mbind outcome_bind].
  unfold pad_or_truncate. cbn [np_len]. rewrite Hlen. reflexivity.
Qed.

(** C1 (as amended): for a non-empty sequence of numeric sub-vectors of
    one common length, with flattened length L, the vectorizer returns a
    vector of length exactly 96: the flattened input followed by 96-L
    zeros when L < 96, its first 96 elements when L > 96, and the
    flattened input itself when L = 96. *)
Theorem vectorize_pads_or_truncates (vs : list (list Q)) (d : nat)
    (Hne : vs <> []) (Hrect : Forall (fun v => length v = d) vs) :
  exists out,
    vectorize (nested_json vs) = Ok (Some (NumArr out)) /\
    length out = 96%nat /\
    ((length (concat vs) < 96)%nat ->
       out = (concat vs ++ repeat 0%Q (96 - length (concat vs)))%list) /\
    ((96 < length (concat vs))%nat -> out = firstn 96 (concat vs)) /\
    (length (concat vs) = 96%nat -> out = concat vs).
Proof.
  destruct (pad_or_truncate_cases (concat vs)) as (out & Hout & Hrest).
  exists out. split; [|exact Hrest].
  rewrite (vectorize_nested vs d Hne Hrect). now rewrite Hout.
Qed.

(** Three sub-vectors of 16 entries: 48 values followed by 48 zeros. *)
Lemma vectorize_pads_or_truncates_witness :
  exists out,
    vectorize (nested_json (repeat (repeat 1%Q 16) 3)) = Ok (Some (NumArr out)) /\
    length out = 96%nat /\
    ((length (concat (repeat (repeat 1%Q 16) 3)) < 96)%nat ->
       out = (concat (repeat (repeat 1%Q 16) 3)
              ++ repeat 0%Q (96 - length (concat (repeat (repeat 1%Q 16) 3))))%list) /\
    ((96 < length (concat (repeat (repeat 1%Q 16) 3)))%nat ->
       out = firstn 96 (concat (repeat (repeat 1%Q 16) 3))) /\
    (length (concat (repeat (repeat 1%Q 16) 3)) = 96%nat ->
       out = concat (repeat (repeat 1%Q 16) 3)).
Proof.
  apply (vectorize_pads_or_truncates (repeat (repeat 1%Q 16) 3) 16).
  - discriminate.
  - repeat constructor.
Defined.

(** C1 (as stated) fails twice: the empty sequence yields no vector at
    all, and sub-vectors of different lengths make [np.array] raise. *)
Lemma vectorize_empty_or_ragged :
  vectorize (nested_json []) = Ok None /\
  vectorize (nested_json [[1%Q; 2%Q]; [3%Q]]) = Raise ValueError.
Proof. split; reflexivity. Qed.

(** C8: vectorizing the vector the vectorizer produced gives that vector
    again; a sequence whose flattened length is exactly 96 (flat, or made
    of sub-vectors of one common length) is returned unchanged. *)
Theorem vectorize_idempotent (v : json) (out : list Q)
    (Hv : vectorize v = Ok (Some (NumArr out))) :
  length out = 96%nat /\
  vectorize (flat_json out) = vectorize v /\
  (forall data : list Q,
     length data = 96%nat -> vectorize (flat_json data) = Ok (Some (NumArr data))) /\
  (forall (vs : list (list Q)) (d : nat),
     Forall (fun w => length w = d) vs -> length (concat vs) = 96%nat ->
     vectorize (nested_json vs) = Ok (Some (NumArr (concat vs)))).
Proof.
  assert (Hlen : length out = 96%nat).
  { unfold vectorize in Hv. destruct (truthy v); [|discriminate].
    destruct (np_array_flatten v) as [flat|e]; [|discriminate].
    cbn [mbind outcome_bind] in Hv. injection Hv as Hv.
    pose proof (pad_or_truncate_len flat) as Hl. now rewrite Hv in Hl. }
  split; [exact Hlen|]. split; [|split; [exact vectorize_flat_96|]].
  - rewrite Hv. now apply vectorize_flat_96.
  - intros vs d Hd H96.
    assert (Hne : vs <> []) by (intros ->; discriminate).
    rewrite (vectorize_nested vs d Hne Hd).
    unfold pad_or_truncate. cbn [np_len]. now rewrite H96.
Qed.

(** Seven sub-vectors of 16 entries are cut to 96; cutting again changes
    nothing. *)
Lemma vectorize_idempotent_witness :
  length (repeat 1%Q 96) = 96%nat /\
  vectorize (flat_json (repeat 1%Q 96))
    = vectorize (nested_json (repeat (repeat 1%Q 16) 7)) /\
  (forall data : list Q,
     length data = 96%nat -> vectorize (flat_json data) = Ok (Some (NumArr data))) /\
  (forall (vs : list (list Q)) (d : nat),
     Forall (fun w => length w = d) vs -> length (concat vs) = 96%nat ->
     vectorize (nested_json vs) = Ok (Some (NumArr (concat vs)))).
Proof.
  apply (vectorize_idempotent (nested_json (repeat (repeat 1%Q 16) 7)) (repeat 1%Q 96)).
  reflexivity.
Defined.

(** ** The ingestion loop *)

Section IngestionFacts.
Context `{Externals}.

(** Two iterations that deliver the same lines up to the cap, each
    getting through the fetch after them, give the same result. *)
Lemma read_fingerprints_agree (caught : exn -> bool) (cap : Z)
    (last last' : stream_end) (lines : list string) :
  forall (lines' : list string) (i : Z) (vectors : list ndarray),
    firstn (Z.to_nat (cap - i)) lines = firstn (Z.to_nat (cap - i)) lines' ->
    ((Z.to_nat (cap - i) < length lines)%nat \/ last = Exhausted) ->
    ((Z.to_nat (cap - i) < length lines')%nat \/ last' = Exhausted) ->
    read_fingerprints caught cap i lines last vectors
    = read_fingerprints caught cap i lines' last' vectors.
Proof.
  induction lines as [|line rest IH]; intros lines' i vectors Hagree Hl Hl'.
  - destruct Hl as [Hl| ->]; [cbn in Hl; lia|].
    destruct lines' as [|line' rest']; cbn [read_fingerprints].
    + destruct Hl' as [Hl'| ->]; [cbn in Hl'; lia|reflexivity].
    + destruct (Z.geb_spec i cap) as [_|Hlt]; [reflexivity|].
      replace (Z.to_nat (cap - i)) with (S (Z.to_nat (cap - (i + 1)))) in Hagree by lia.
      discriminate.
  - destruct lines' as [|line' rest']; cbn [read_fingerprints].
    + destruct (Z.geb_spec i cap) as [_|Hlt].
      * destruct Hl' as [Hl'| ->]; [cbn in Hl'; lia|reflexivity].
      * replace (Z.to_nat (cap - i)) with (S (Z.to_nat (cap - (i + 1)))) in Hagree by lia.
        discriminate.
    + destruct (Z.geb_spec i cap) as [_|Hlt]; [reflexivity|].
      replace (Z.to_nat (cap - i)) with (S (Z.to_nat (cap - (i + 1)))) in * by lia.
      cbn [firstn length] in *. injection Hagree as <- Hagree.
      assert (Hr : (Z.to_nat (cap - (i + 1)) < length rest)%nat \/ last = Exhausted)
        by (destruct Hl; [left; lia | now right]).
      assert (Hr' : (Z.to_nat (cap - (i + 1)) < length rest')%nat \/ last' = Exhausted)
        by (destruct Hl'; [left; lia | now right]).
      destruct (read_record line) as [[flat|]|e]; try now apply IH.
      destruct (caught e); [now apply IH | reflexivity].
Qed.

(** Every iteration adds at most one vector. *)
Lemma read_fingerprints_size (caught : exn -> bool) (cap : Z) (last : stream_end)
    (lines : list string) :
  forall (i : Z) (vectors X : list ndarray),
    read_fingerprints caught cap i lines last vectors = Ok X ->
    (length X <= length vectors + Z.to_nat (cap - i))%nat.
Proof.
  induction lines as [|line rest IH]; intros i vectors X HX; cbn [read_fingerprints] in HX.
  - destruct last; [|discriminate]. injection HX as <-. lia.
  - destruct (Z.geb_spec i cap) as [Hge|Hlt].
    + injection HX as <-. lia.
    + destruct (read_record line) as [[flat|]|e].
      * apply IH in HX. rewrite length_app in HX. cbn [length] in HX. lia.
      * apply IH in HX. lia.
      * destruct (caught e); [|discriminate]. apply IH in HX. lia.
Qed.

(** With the bare [except:] no exception of a record leaves the loop:
    it returns, or the [for] statement itself fails to decode. *)
Lemma read_fingerprints_catch_all (cap : Z) (last : stream_end) (lines : list string) :
  forall (i : Z) (vectors : list ndarray),
    (exists X, read_fingerprints (fun _ => true) cap i lines last vectors = Ok X) \/
    read_fingerprints (fun _ => true) cap i lines last vectors
    = Raise UnicodeDecodeError.
Proof.
  induction lines as [|line rest IH]; intros i vectors; cbn [read_fingerprints].
  - destruct last; [left; now exists vectors | now right].
  - destruct (i >=? cap)%Z; [left; now exists vectors|].
    destruct (read_record line) as [[flat|]|e]; apply IH.
Qed.

(** A source that repeats one valid record [n] times and then ends
    yields its vector once per record examined. *)
Lemma read_fingerprints_repeat (caught : exn -> bool) (cap : Z) (line : string)
    (flat : ndarray) :
  read_record line = Ok (Some flat) ->
  forall (n : nat) (i : Z) (vectors : list ndarray),
    read_fingerprints caught cap i (repeat line n) Exhausted vectors
    = Ok (vectors ++ repeat flat (Nat.min n (Z.to_nat (cap - i))))%list.
Proof.
  intros Hline. induction n as [|n IH]; intros i vectors.
  - cbn [repeat read_fingerprints Nat.min]. now rewrite app_nil_r.
  - cbn [repeat read_fingerprints]. rewrite Hline.
    destruct (Z.geb_spec i cap) as [Hge|Hlt].
    + replace (Z.to_nat (cap - i)) with 0%nat by lia.
      rewrite Nat.min_0_r. cbn [repeat]. now rewrite app_nil_r.
    + rewrite IH.
      replace (Z.to_nat (cap - i)) with (S (Z.to_nat (cap - (i + 1)))) by lia.
      rewrite <- Nat.succ_min_distr. cbn [repeat].
      now rewrite <- app_assoc.
Qed.

End IngestionFacts.

(** The stand-in reader delivers the lines of a text one by one. *)
Lemma universal_lines_cons (line rest : string) :
  Fixture.plain_line line = true ->
  Fixture.universal_lines false (line ++ String newline rest)
  = (line ++ Fixture.nl) :: Fixture.universal_lines false rest.
Proof.
  induction line as [|c line IH]; intros Hline.
  - change (Fixture.universal_lines false (String newline rest)
            = Fixture.nl :: Fixture.universal_lines false rest).
    cbn [Fixture.universal_lines]. now rewrite Ascii.eqb_refl.
  - cbn [Fixture.plain_line] in Hline.
    apply andb_true_iff in Hline as [Hc Hline].
    apply andb_true_iff in Hc as [Hlf Hcr].
    apply negb_true_iff in Hlf, Hcr.
    change (Fixture.universal_lines false (String c (line ++ String newline rest))
            = String c (line ++ Fixture.nl) :: Fixture.universal_lines false rest).
    cbn [Fixture.universal_lines]. rewrite Hlf, Hcr. now rewrite (IH Hline).
Qed.

Lemma universal_lines_text_of_repeat (line : string) (n : nat) :
  Fixture.plain_line line = true ->
  Fixture.universal_lines false (Fixture.text_of (repeat line n))
  = repeat (line ++ Fixture.nl) n.
Proof.
  intros Hline. induction n as [|n IH]; [reflexivity|].
  cbn [repeat Fixture.text_of fold_right].
  change (Fixture.nl ++ ?rest) with (String newline rest).
  fold (Fixture.text_of (repeat line n)).
  now rewrite (universal_lines_cons _ _ Hline), IH.
Qed.

Lemma has_invalid_byte_app (a b : string) :
  Fixture.has_invalid_byte (a ++ b)
  = Fixture.has_invalid_byte a || Fixture.has_invalid_byte b.
Proof.
  induction a as [|c a IH]; [reflexivity|].
  change (Fixture.has_invalid_byte (String c (a ++ b))
          = Fixture.has_invalid_byte (String c a) || Fixture.has_invalid_byte b).
  cbn [Fixture.has_invalid_byte]. rewrite IH. now rewrite orb_assoc.
Qed.

Lemma has_invalid_byte_text_of_repeat (line : string) (n : nat) :
  Fixture.has_invalid_byte line = false ->
  Fixture.has_invalid_byte (Fixture.text_of (repeat line n)) = false.
Proof.
  intros Hline. induction n as [|n IH]; [reflexivity|].
  cbn [repeat Fixture.text_of fold_right].
  fold (Fixture.text_of (repeat line n)).
  now rewrite !has_invalid_byte_app, Hline, IH.
Qed.

Lemma read_lines_text_of_repeat (line : string) (n : nat) :
  Fixture.plain_line line = true ->
  Fixture.has_invalid_byte line = false ->
  Fixture.read_lines (Fixture.text_of (repeat line n))
  = {| yielded := repeat (line ++ Fixture.nl) n; ending := Exhausted |}.
Proof.
  intros Hplain Hvalid. unfold Fixture.read_lines.
  rewrite (has_invalid_byte_text_of_repeat _ _ Hvalid).
  now rewrite (universal_lines_text_of_repeat _ _ Hplain).
Qed.

Lemma disk_training_file (lines : list string) :
  Fixture.disk lines !! Fixture.training_path = Some (Fixture.text_of lines).
Proof. apply lookup_insert_eq. Qed.

Section LoaderFacts.
Context `{Externals}.

(** C5 (as amended): for every cap [max_samples = k] the loader decodes
    and vectorizes at most the first [k] records: two sources whose
    first [k] lines are the same, each read through the fetch that
    follows them, give the same result, whatever comes after those lines
    and however many of them were invalid; and the returned dataset has
    at most [k] vectors (none when [k] is negative).  The file itself is
    read past the first [k] records: the [for] statement fetches the
    next line before the loop breaks. *)
Theorem cap_bounds_records_examined (k : Z) (fs : files) (path content : string)
    (Hfs : fs !! path = Some content) :
  (forall X : list ndarray,
     TrainIsolationForest.load_training_data fs path k = Ok X ->
     (Z.of_nat (length X) <= Z.max 0 k)%Z) /\
  (forall (fs' : files) (content' : string),
     fs' !! path = Some content' ->
     firstn (Z.to_nat k) (yielded (open_text content))
       = firstn (Z.to_nat k) (yielded (open_text content')) ->
     fetches_through (Z.to_nat k) (open_text content) ->
     fetches_through (Z.to_nat k) (open_text content') ->
     TrainIsolationForest.load_training_data fs path k
       = TrainIsolationForest.load_training_data fs' path k).
Proof.
  unfold TrainIsolationForest.load_training_data, read_text.
  rewrite Hfs. cbn [mbind outcome_bind]. split.
  - intros X HX. apply read_fingerprints_size in HX. cbn [length] in HX. lia.
  - intros fs' content' Hfs' Hagree Hthrough Hthrough'.
    rewrite Hfs'. cbn [mbind outcome_bind].
    apply read_fingerprints_agree; rewrite Z.sub_0_r; assumption.
Qed.

(** C9 (as amended): when the caller gives no [--max-samples], the cap
    of the training run is 50000: runs over sources whose first 50000
    lines are the same, each read through the fetch that follows them,
    are the same run.  The statistics script has no such parameter and
    its cap is 30000: its loader gives the same result on sources whose
    first 30000 lines are the same. *)
Theorem default_examination_caps (c : TrainIsolationForest.cli)
    (Hdefault : TrainIsolationForest.cli_max_samples c = None) :
  TrainIsolationForest.args_max_samples (TrainIsolationForest.parse_args c)
    = 50000%Z /\
  (forall (fs fs' : files) (content content' : string),
     fs !! TrainIsolationForest.args_input (TrainIsolationForest.parse_args c)
       = Some content ->
     fs' !! TrainIsolationForest.args_input (TrainIsolationForest.parse_args c)
       = Some content' ->
     firstn (Z.to_nat 50000) (yielded (open_text content))
       = firstn (Z.to_nat 50000) (yielded (open_text content')) ->
     fetches_through (Z.to_nat 50000) (open_text content) ->
     fetches_through (Z.to_nat 50000) (open_text content') ->
     TrainIsolationForest.main c fs = TrainIsolationForest.main c fs') /\
  (forall (fs fs' : files) (content content' : string),
     fs !! ComputeStats.input_path = Some content ->
     fs' !! ComputeStats.input_path = Some content' ->
     firstn (Z.to_nat 30000) (yielded (open_text content))
       = firstn (Z.to_nat 30000) (yielded (open_text content')) ->
     fetches_through (Z.to_nat 30000) (open_text content) ->
     fetches_through (Z.to_nat 30000) (open_text content') ->
     ComputeStats.load_fingerprints fs = ComputeStats.load_fingerprints fs').
Proof.
  assert (Hcap : TrainIsolationForest.args_max_samples
                   (TrainIsolationForest.parse_args c) = 50000%Z).
  { unfold TrainIsolationForest.parse_args. cbn. now rewrite Hdefault. }
  split; [exact Hcap|]. split.
  - intros fs fs' content content' Hfs Hfs' Hagree Hthrough Hthrough'.
    unfold TrainIsolationForest.main, TrainIsolationForest.load_training_data,
      read_text.
    rewrite Hcap, Hfs, Hfs'. cbn [mbind outcome_bind].
    now rewrite (read_fingerprints_agree TrainIsolationForest.caught 50000
                   (ending (open_text content)) (ending (open_text content'))
                   (yielded (open_text content)) (yielded (open_text content'))
                   0 [] Hagree Hthrough Hthrough').
  - intros fs fs' content content' Hfs Hfs' Hagree Hthrough Hthrough'.
    unfold ComputeStats.load_fingerprints, read_text.
    rewrite Hfs, Hfs'. cbn [mbind outcome_bind].
    now apply read_fingerprints_agree.
Qed.

End LoaderFacts.

(** ** Score statistics *)

Section ScoreFacts.
Local Open Scope Q_scope.

Lemma Qle_bool_false (a b : Q) : Qle_bool a b = false -> b < a.
Proof.
  intros Hf. apply Qnot_le_lt. intros Hle.
  apply Qle_bool_iff in Hle. congruence.
Qed.

Lemma lerp_spec (a b t : Q) : lerp a b t == a + (b - a) * t.
Proof. unfold lerp. destruct (Qle_bool (1 # 2) t); ring. Qed.

(** Between two ordered values the interpolation stays between them. *)
Lemma lerp_between (a b t : Q) :
  a <= b -> 0 <= t -> t <= 1 -> a <= lerp a b t /\ lerp a b t <= b.
Proof. intros Hab H0 H1. rewrite lerp_spec. split; nra. Qed.

Lemma lerp_mono (a b t u : Q) :
  a <= b -> t <= u -> lerp a b t <= lerp a b u.
Proof. intros Hab Htu. rewrite !lerp_spec. nra. Qed.

Lemma insert_sorted_In (x y : Q) (arr : list Q) :
  In y (insert_sorted x arr) <-> y = x \/ In y arr.
Proof.
  induction arr as [|z rest IH]; cbn [insert_sorted In].
  - intuition congruence.
  - destruct (Qle_bool x z); cbn [In]; [intuition congruence|].
    rewrite IH. tauto.
Qed.

Lemma insert_sorted_length (x : Q) (arr : list Q) :
  length (insert_sorted x arr) = S (length arr).
Proof.
  induction arr as [|z rest IH]; cbn [insert_sorted length]; [reflexivity|].
  destruct (Qle_bool x z); cbn [length]; [reflexivity|]. now rewrite IH.
Qed.

Lemma insert_sorted_sorted (x : Q) (arr : list Q) :
  StronglySorted Qle arr -> StronglySorted Qle (insert_sorted x arr).
Proof.
  induction 1 as [|z rest Hs IH Hz]; cbn [insert_sorted].
  - repeat constructor.
  - destruct (Qle_bool x z) eqn:Hxz.
    + apply Qle_bool_iff in Hxz. constructor; [now constructor|].
      constructor; [exact Hxz|].
      eapply Forall_impl; [exact Hz|]. intros w Hw. cbn in Hw.
      now apply Qle_trans with z.
    + apply Qle_bool_false in Hxz. constructor; [exact IH|].
      apply List.Forall_forall. intros w Hw. apply insert_sorted_In in Hw as [->|Hw].
      * now apply Qlt_le_weak.
      * rewrite List.Forall_forall in Hz. now apply Hz.
Qed.

Lemma np_sort_sorted (scores : list Q) : StronglySorted Qle (np_sort scores).
Proof.
  induction scores as [|x rest IH]; cbn [np_sort fold_right]; [constructor|].
  now apply insert_sorted_sorted.
Qed.

Lemma np_sort_length (scores : list Q) : length (np_sort scores) = length scores.
Proof.
  induction scores as [|x rest IH]; cbn [np_sort fold_right length]; [reflexivity|].
  rewrite insert_sorted_length. f_equal. exact IH.
Qed.

Lemma np_sort_In (y : Q) (scores : list Q) : In y (np_sort scores) <-> In y scores.
Proof.
  induction scores as [|x rest IH]; cbn [np_sort fold_right In]; [tauto|].
  rewrite insert_sorted_In. fold (np_sort rest). rewrite IH.
  split; intros [Hx|Hin]; auto.
Qed.

(** In a sorted array the entries grow with the index. *)
Lemma sorted_nth_le (arr : list Q) :
  StronglySorted Qle arr ->
  forall i j : nat, (i <= j)%nat -> (j < length arr)%nat ->
    nth i arr 0 <= nth j arr 0.
Proof.
  induction 1 as [|z rest Hs IH Hz]; intros i j Hij Hj; cbn [length] in Hj; [lia|].
  destruct i as [|i], j as [|j]; cbn [nth]; try lia.
  - apply Qle_refl.
  - rewrite List.Forall_forall in Hz. apply Hz. apply nth_In. lia.
  - apply IH; lia.
Qed.

Lemma np_min_le (x : Q) (xs : list Q) (y : Q) :
  In y (x :: xs) -> np_min x xs <= y.
Proof.
  unfold np_min. induction xs as [|z rest IH]; cbn [fold_right In].
  - intros [->|[]]. apply Qle_refl.
  - intros Hy. unfold Qmin_b at 1.
    destruct (Qle_bool z (fold_right Qmin_b x rest)) eqn:Hz.
    + apply Qle_bool_iff in Hz. destruct Hy as [->|[->|Hy]].
      * eapply Qle_trans; [exact Hz|]. apply IH. now left.
      * apply Qle_refl.
      * eapply Qle_trans; [exact Hz|]. apply IH. now right.
    + apply Qle_bool_false in Hz. destruct Hy as [->|[->|Hy]].
      * apply IH. now left.
      * now apply Qlt_le_weak.
      * apply IH. now right.
Qed.

Lemma np_max_ge (x : Q) (xs : list Q) (y : Q) :
  In y (x :: xs) -> y <= np_max x xs.
Proof.
  unfold np_max. induction xs as [|z rest IH]; cbn [fold_right In].
  - intros [->|[]]. apply Qle_refl.
  - intros Hy. unfold Qmax_b at 1.
    destruct (Qle_bool z (fold_right Qmax_b x rest)) eqn:Hz.
    + apply Qle_bool_iff in Hz. destruct Hy as [->|[->|Hy]].
      * apply IH. now left.
      * exact Hz.
      * apply IH. now right.
    + apply Qle_bool_false in Hz. destruct Hy as [->|[->|Hy]].
      * apply Qlt_le_weak. eapply Qle_lt_trans; [|exact Hz]. apply IH. now left.
      * apply Qle_refl.
      * apply Qlt_le_weak. eapply Qle_lt_trans; [|exact Hz]. apply IH. now right.
Qed.

Lemma inject_Z_pred (z : Z) : inject_Z (z - 1) == inject_Z z - 1.
Proof.
  unfold Qminus, Z.sub. rewrite inject_Z_plus, inject_Z_opp. reflexivity.
Qed.

Lemma Qfloor_nonneg (x : Q) : 0 <= x -> (0 <= Qfloor x)%Z.
Proof. intros Hx. apply (Qfloor_resp_le 0 x) in Hx. exact Hx. Qed.

Lemma Qfloor_below (x : Q) (z : Z) : x < inject_Z z -> (Qfloor x < z)%Z.
Proof.
  intros Hx. rewrite Zlt_Qlt. eapply Qle_lt_trans; [apply Qfloor_le|exact Hx].
Qed.

(** The weight is the fractional part of the virtual index. *)
Lemma Qfloor_frac (x : Q) : 0 <= x - inject_Z (Qfloor x) /\ x - inject_Z (Qfloor x) <= 1.
Proof.
  pose proof (Qfloor_le x) as Hlo. pose proof (Qlt_floor x) as Hhi.
  rewrite inject_Z_plus in Hhi. change (inject_Z 1) with 1 in Hhi.
  split; lra.
Qed.

(** At or beyond the last index the result is the last element. *)
Lemma interpolate_above (arr : list Q) (x : Q) :
  (1 <= length arr)%nat ->
  inject_Z (Z.of_nat (length arr)) - 1 <= x ->
  interpolate arr x == nth (length arr - 1) arr 0.
Proof.
  intros Hn Hx. unfold interpolate.
  assert (H0 : 0 <= x).
  { eapply Qle_trans; [|exact Hx]. rewrite <- inject_Z_pred.
    change 0 with (inject_Z 0). rewrite <- Zle_Qle. lia. }
  apply Qle_bool_iff in H0, Hx. rewrite H0, Hx. cbn [negb].
  rewrite lerp_spec. unfold py_index. cbn [Z.ltb Z.compare].
  replace (Z.to_nat (Z.of_nat (length arr) + -1)) with (length arr - 1)%nat by lia.
  ring.
Qed.

(** Strictly inside the array the result interpolates between the two
    neighbours of the virtual index. *)
Lemma interpolate_inside (arr : list Q) (x : Q) :
  0 <= x ->
  x < inject_Z (Z.of_nat (length arr)) - 1 ->
  interpolate arr x ==
    nth (Z.to_nat (Qfloor x)) arr 0
    + (nth (S (Z.to_nat (Qfloor x))) arr 0 - nth (Z.to_nat (Qfloor x)) arr 0)
      * (x - inject_Z (Qfloor x)).
Proof.
  intros H0 Hx. unfold interpolate.
  pose proof (Qfloor_nonneg x H0) as Hk.
  apply Qle_bool_iff in H0. rewrite H0. cbn [negb].
  destruct (Qle_bool (inject_Z (Z.of_nat (length arr)) - 1) x) eqn:Habove.
  { apply Qle_bool_iff in Habove. lra. }
  rewrite lerp_spec. unfold py_index.
  destruct (Z.ltb_spec (Qfloor x) 0) as [Hneg|_]; [lia|].
  destruct (Z.ltb_spec (Qfloor x + 1) 0) as [Hneg|_]; [lia|].
  replace (Z.to_nat (Qfloor x + 1)) with (S (Z.to_nat (Qfloor x))) by lia.
  reflexivity.
Qed.

(** Inside the array the two neighbours exist. *)
Lemma inside_indices (arr : list Q) (x : Q) :
  0 <= x ->
  x < inject_Z (Z.of_nat (length arr)) - 1 ->
  (S (Z.to_nat (Qfloor x)) < length arr)%nat.
Proof.
  intros H0 Hx. pose proof (Qfloor_nonneg x H0) as Hk.
  rewrite <- inject_Z_pred in Hx. apply Qfloor_below in Hx. lia.
Qed.

(** The result lies between two elements of the array. *)
Lemma interpolate_bracket (arr : list Q) (x : Q) :
  StronglySorted Qle arr -> (1 <= length arr)%nat -> 0 <= x ->
  exists lo hi : nat,
    (lo <= hi)%nat /\ (hi < length arr)%nat /\
    (inject_Z (Z.of_nat lo) <= x) /\
    (x < inject_Z (Z.of_nat (length arr)) - 1 -> x <= inject_Z (Z.of_nat hi)) /\
    nth lo arr 0 <= interpolate arr x /\ interpolate arr x <= nth hi arr 0.
Proof.
  intros Hs Hn H0.
  destruct (Qlt_le_dec x (inject_Z (Z.of_nat (length arr)) - 1)) as [Hin|Hab].
  - pose proof (inside_indices arr x H0 Hin) as Hk.
    pose proof (Qfloor_nonneg x H0) as Hk0.
    pose proof (Qfloor_frac x) as [Hg0 Hg1].
    exists (Z.to_nat (Qfloor x)), (S (Z.to_nat (Qfloor x))).
    assert (Hab : nth (Z.to_nat (Qfloor x)) arr 0 <= nth (S (Z.to_nat (Qfloor x))) arr 0)
      by (apply sorted_nth_le; [exact Hs | lia | exact Hk]).
    rewrite (interpolate_inside arr x H0 Hin).
    repeat split; try lia.
    + rewrite Z2Nat.id by lia. apply Qfloor_le.
    + intros _. rewrite Nat2Z.inj_succ, Z2Nat.id by lia.
      apply Qlt_le_weak. apply Qlt_floor.
    + nra.
    + nra.
  - exists (length arr - 1)%nat, (length arr - 1)%nat.
    rewrite (interpolate_above arr x Hn Hab).
    repeat split; try lia; try apply Qle_refl.
    + replace (Z.of_nat (length arr - 1)) with (Z.of_nat (length arr) - 1)%Z by lia.
      now rewrite inject_Z_pred.
    + intros Hlt. lra.
Qed.

(** The interpolated value grows with the virtual index. *)
Lemma interpolate_mono (arr : list Q) (x y : Q) :
  StronglySorted Qle arr -> (1 <= length arr)%nat -> 0 <= x -> x <= y ->
  interpolate arr x <= interpolate arr y.
Proof.
  intros Hs Hn H0 Hxy.
  assert (H0y : 0 <= y) by lra.
  destruct (Qlt_le_dec y (inject_Z (Z.of_nat (length arr)) - 1)) as [Hy|Hy].
  - assert (Hx : x < inject_Z (Z.of_nat (length arr)) - 1) by lra.
    pose proof (inside_indices arr x H0 Hx) as Hkx.
    pose proof (inside_indices arr y H0y Hy) as Hky.
    pose proof (Qfloor_nonneg x H0) as Hx0.
    pose proof (Qfloor_resp_le x y Hxy) as Hfl.
    pose proof (Qfloor_frac x) as [Hgx0 Hgx1].
    pose proof (Qfloor_frac y) as [Hgy0 Hgy1].
    rewrite (interpolate_inside arr x H0 Hx), (interpolate_inside arr y H0y Hy).
    destruct (Z.eq_dec (Qfloor x) (Qfloor y)) as [Heq|Hne].
    + rewrite <- Heq.
      assert (Hab : nth (Z.to_nat (Qfloor x)) arr 0
                    <= nth (S (Z.to_nat (Qfloor x))) arr 0)
        by (apply sorted_nth_le; [exact Hs | lia | exact Hkx]).
      rewrite <- Heq in Hgy0, Hgy1. nra.
    + assert (Hax : nth (Z.to_nat (Qfloor x)) arr 0
                    <= nth (S (Z.to_nat (Qfloor x))) arr 0)
        by (apply sorted_nth_le; [exact Hs | lia | exact Hkx]).
      assert (Hay : nth (Z.to_nat (Qfloor y)) arr 0
                    <= nth (S (Z.to_nat (Qfloor y))) arr 0)
        by (apply sorted_nth_le; [exact Hs | lia | exact Hky]).
      assert (Hmid : nth (S (Z.to_nat (Qfloor x))) arr 0
                     <= nth (Z.to_nat (Qfloor y)) arr 0)
        by (apply sorted_nth_le; [exact Hs | lia | lia]).
      apply Qle_trans with (nth (S (Z.to_nat (Qfloor x))) arr 0); [nra|].
      apply Qle_trans with (nth (Z.to_nat (Qfloor y)) arr 0); [exact Hmid|nra].
  - rewrite (interpolate_above arr y Hn Hy).
    destruct (interpolate_bracket arr x Hs Hn H0) as (lo & hi & _ & Hhi & _ & _ & _ & Hub).
    eapply Qle_trans; [exact Hub|].
    apply sorted_nth_le; [exact Hs | lia | lia].
Qed.

Lemma virtual_index_mono (n : nat) (q1 q2 : Q) :
  (1 <= n)%nat -> q1 <= q2 ->
  (inject_Z (Z.of_nat n) - 1) * (q1 / 100) <= (inject_Z (Z.of_nat n) - 1) * (q2 / 100).
Proof.
  intros Hn Hq.
  assert (H0 : 0 <= inject_Z (Z.of_nat n) - 1).
  { rewrite <- inject_Z_pred. change 0 with (inject_Z 0). rewrite <- Zle_Qle. lia. }
  unfold Qdiv. change (/ 100) with (1 # 100). nra.
Qed.

Lemma virtual_index_nonneg (n : nat) (q : Q) :
  (1 <= n)%nat -> 0 <= q -> 0 <= (inject_Z (Z.of_nat n) - 1) * (q / 100).
Proof.
  intros Hn Hq.
  assert (H0 : 0 <= inject_Z (Z.of_nat n) - 1).
  { rewrite <- inject_Z_pred. change 0 with (inject_Z 0). rewrite <- Zle_Qle. lia. }
  unfold Qdiv. change (/ 100) with (1 # 100). nra.
Qed.

Lemma np_sort_nonempty (x : Q) (xs : list Q) : (1 <= length (np_sort (x :: xs)))%nat.
Proof. rewrite np_sort_length. cbn [length]. lia. Qed.

(** A higher percentile is never smaller. *)
Lemma np_percentile_mono (x : Q) (xs : list Q) (q1 q2 : Q) :
  0 <= q1 -> q1 <= q2 ->
  np_percentile (x :: xs) q1 <= np_percentile (x :: xs) q2.
Proof.
  intros H0 Hq. unfold np_percentile.
  pose proof (np_sort_nonempty x xs) as Hn.
  apply interpolate_mono.
  - apply np_sort_sorted.
  - exact Hn.
  - now apply virtual_index_nonneg.
  - now apply virtual_index_mono.
Qed.

(** Every percentile lies between the smallest and the largest score. *)
Lemma np_percentile_between (x : Q) (xs : list Q) (q : Q) :
  0 <= q ->
  np_min x xs <= np_percentile (x :: xs) q /\ np_percentile (x :: xs) q <= np_max x xs.
Proof.
  intros H0. unfold np_percentile.
  pose proof (np_sort_nonempty x xs) as Hn.
  destruct (interpolate_bracket (np_sort (x :: xs))
              ((inject_Z (Z.of_nat (length (np_sort (x :: xs)))) - 1) * (q / 100))
              (np_sort_sorted _) Hn (virtual_index_nonneg _ q Hn H0))
    as (lo & hi & Hlohi & Hhi & _ & _ & Hlb & Hub).
  split.
  - eapply Qle_trans; [|exact Hlb]. apply np_min_le.
    apply np_sort_In. apply nth_In. lia.
  - eapply Qle_trans; [exact Hub|]. apply np_max_ge.
    apply np_sort_In. apply nth_In. lia.
Qed.

End ScoreFacts.

Section CalibrationFacts.
Context `{Externals}.

(** What [compute_threshold_stats] returns, in terms of the raw scores. *)
Lemma compute_threshold_stats_inv (m : model) (X : list ndarray) (stats : score_stats) :
  TrainIsolationForest.compute_threshold_stats m X = Ok stats ->
  exists (raw : list Q) (x : Q) (xs : list Q),
    score_samples m X = Ok raw /\
    map Qopp raw = x :: xs /\
    stats = {| stat_mean := np_mean (x :: xs);
               stat_std := np_std (x :: xs);
               stat_min := np_min x xs;
               stat_max := np_max x xs;
               stat_p50 := np_percentile (x :: xs) 50;
               stat_p90 := np_percentile (x :: xs) 90;
               stat_p95 := np_percentile (x :: xs) 95;
               stat_p99 := np_percentile (x :: xs) 99 |}.
Proof.
  unfold TrainIsolationForest.compute_threshold_stats. intros Hs.
  destruct (score_samples m X) as [raw|e]; [|discriminate].
  cbn [mbind outcome_bind] in Hs.
  destruct (map Qopp raw) as [|x xs] eqn:Hneg; [discriminate|].
  injection Hs as <-. now exists raw, x, xs.
Qed.

(** C7: the statistics computed from a non-empty score sequence satisfy
    min <= p50 <= p90 <= p95 <= p99 <= max. *)
Theorem score_stats_ordered (m : model) (X : list ndarray) (stats : score_stats)
    (Hstats : TrainIsolationForest.compute_threshold_stats m X = Ok stats) :
  (stat_min stats <= stat_p50 stats)%Q /\
  (stat_p50 stats <= stat_p90 stats)%Q /\
  (stat_p90 stats <= stat_p95 stats)%Q /\
  (stat_p95 stats <= stat_p99 stats)%Q /\
  (stat_p99 stats <= stat_max stats)%Q.
Proof.
  apply compute_threshold_stats_inv in Hstats as (raw & x & xs & _ & _ & ->).
  cbn [stat_min stat_max stat_p50 stat_p90 stat_p95 stat_p99].
  repeat split.
  - apply np_percentile_between. discriminate.
  - apply np_percentile_mono; discriminate.
  - apply np_percentile_mono; discriminate.
  - apply np_percentile_mono; discriminate.
  - apply np_percentile_between. discriminate.
Qed.

End CalibrationFacts.

(** ** Writing to the disk *)

(** Opening for writing and then writing leaves exactly the text. *)
Lemma replay_truncate_append (fs : files) (path text : string) :
  replay fs [Truncate path; Append path text] = <[path := text]> fs.
Proof.
  unfold replay. cbn [fold_left apply_io].
  rewrite lookup_insert_eq. cbn [default]. apply insert_insert_eq.
Qed.

Lemma visible_states_truncate_append (fs : files) (path text : string) :
  visible_states fs [Truncate path; Append path text]
  = [fs; <[path := ""]> fs; <[path := text]> fs].
Proof.
  unfold visible_states. cbn [length seq map firstn].
  now rewrite replay_truncate_append.
Qed.

Section ExportFacts.
Context `{Externals}.

(** After [export_model] the metadata file holds the serialised
    metadata. *)
Lemma export_model_metadata_file (fs : files) (m : model) (output_path : string)
    (metadata : json) :
  replay fs (TrainIsolationForest.export_model m output_path metadata)
    !! with_suffix_json output_path
  = Some (json_dumps metadata).
Proof.
  unfold TrainIsolationForest.export_model.
  change [Truncate output_path; Append output_path (joblib_dumps m);
          Truncate (with_suffix_json output_path);
          Append (with_suffix_json output_path) (json_dumps metadata)]
    with ([Truncate output_path; Append output_path (joblib_dumps m)]
          ++ [Truncate (with_suffix_json output_path);
              Append (with_suffix_json output_path) (json_dumps metadata)])%list.
  unfold replay. rewrite fold_left_app. fold (replay fs [Truncate output_path; Append output_path (joblib_dumps m)]).
  match goal with |- fold_left apply_io ?evs ?st !! _ = _ =>
    change (fold_left apply_io evs st) with (replay st evs) end.
  rewrite replay_truncate_append. apply lookup_insert_eq.
Qed.

(** A run of [main] that exits with status 0 went through every stage. *)
Lemma main_success_inv (c : TrainIsolationForest.cli) (fs : files) (events : list io) :
  TrainIsolationForest.main c fs = (events, Ok 0%Z) ->
  exists (X : list ndarray) (m : model) (stats : score_stats),
    TrainIsolationForest.load_training_data fs
      (TrainIsolationForest.args_input (TrainIsolationForest.parse_args c))
      (TrainIsolationForest.args_max_samples (TrainIsolationForest.parse_args c))
      = Ok X /\
    (100 <= length X)%nat /\
    TrainIsolationForest.train_model X
      (TrainIsolationForest.args_contamination (TrainIsolationForest.parse_args c))
      = Ok m /\
    TrainIsolationForest.compute_threshold_stats m X = Ok stats /\
    events = TrainIsolationForest.export_model m
               (TrainIsolationForest.args_output (TrainIsolationForest.parse_args c))
               (JObj (TrainIsolationForest.build_metadata
                        (TrainIsolationForest.parse_args c) X stats)).
Proof.
  unfold TrainIsolationForest.main. intros Hrun.
  destruct (TrainIsolationForest.load_training_data _ _ _) as [X|e] eqn:HX;
    [|discriminate].
  destruct (Nat.ltb_spec (length X) 100) as [Hlt|Hge]; [discriminate|].
  destruct (TrainIsolationForest.train_model _ _) as [m|e] eqn:Hm; [|discriminate].
  destruct (TrainIsolationForest.compute_threshold_stats m X) as [stats|e] eqn:Hs;
    [|discriminate].
  injection Hrun as <-. now exists X, m, stats.
Qed.

(** C2: in every run that exports a model, the statistics are those of
    the negated raw scores, and the exported [threshold_suggestion] is
    the 95th percentile of the negated scores, the very value stored as
    [p95] of [score_stats]. *)
Theorem threshold_is_p95_of_negated_scores (c : TrainIsolationForest.cli)
    (fs : files) (events : list io)
    (Hrun : TrainIsolationForest.main c fs = (events, Ok 0%Z)) :
  exists (X : list ndarray) (m : model) (raw : list Q) (stats : score_stats)
         (metadata : gmap string json),
    score_samples m X = Ok raw /\
    stat_min stats = np_min (hd 0%Q (map Qopp raw)) (tl (map Qopp raw)) /\
    stat_max stats = np_max (hd 0%Q (map Qopp raw)) (tl (map Qopp raw)) /\
    stat_mean stats = np_mean (map Qopp raw) /\
    stat_p50 stats = np_percentile (map Qopp raw) 50 /\
    stat_p90 stats = np_percentile (map Qopp raw) 90 /\
    stat_p95 stats = np_percentile (map Qopp raw) 95 /\
    stat_p99 stats = np_percentile (map Qopp raw) 99 /\
    metadata !! "score_stats" = Some (stats_json stats) /\
    metadata !! "threshold_suggestion" = Some (JNum (stat_p95 stats)) /\
    metadata !! "threshold_suggestion"
      = Some (JNum (np_percentile (map Qopp raw) 95)) /\
    replay fs events
      !! with_suffix_json
           (TrainIsolationForest.args_output (TrainIsolationForest.parse_args c))
    = Some (json_dumps (JObj metadata)).
Proof.
  apply main_success_inv in Hrun as (X & m & stats & _ & _ & _ & Hs & ->).
  pose proof (compute_threshold_stats_inv m X stats Hs)
    as (raw & x & xs & Hraw & Hneg & Hstats).
  exists X, m, raw, stats,
    (TrainIsolationForest.build_metadata (TrainIsolationForest.parse_args c) X stats).
  rewrite Hneg.
  assert (Hp95 : stat_p95 stats = np_percentile (x :: xs) 95) by now subst stats.
  repeat split;
    first [ exact Hraw
          | apply export_model_metadata_file
          | now rewrite <- Hp95
          | now subst stats ].
Qed.

(** A run of the statistics script that reaches the write has read a
    [dict] from the metadata file and set the two fields in it. *)
Lemma compute_stats_main_inv (fs : files) (events : list io) (metadata : json) :
  ComputeStats.main fs = (events, Ok metadata) ->
  exists (text : string) (old : gmap string json) (mean_vector std_vector : json),
    fs !! ComputeStats.metadata_path = Some text /\
    json_loads text = Ok (JObj old) /\
    metadata = JObj (<["std_vector" := std_vector]>
                       (<["mean_vector" := mean_vector]> old)) /\
    events = ComputeStats.persist metadata.
Proof.
  unfold ComputeStats.main. intros Hrun.
  destruct (ComputeStats.load_fingerprints fs) as [X|e]; [|discriminate].
  cbn [mbind outcome_bind] in Hrun.
  destruct (mean_axis0_tolist X) as [mean_vector|e]; [|discriminate].
  cbn [mbind outcome_bind] in Hrun.
  destruct (std_axis0_tolist X) as [std_vector|e]; [|discriminate].
  cbn [mbind outcome_bind] in Hrun.
  unfold ComputeStats.merge, read_text in Hrun.
  destruct (fs !! ComputeStats.metadata_path) as [text|] eqn:Hfs; [|discriminate].
  cbn [mbind outcome_bind] in Hrun.
  destruct (json_loads text) as [[| | | | |old]|e] eqn:Hload; try discriminate.
  cbn [mbind outcome_bind dict_set] in Hrun.
  injection Hrun as <- <-.
  now exists text, old, mean_vector, std_vector.
Qed.

(** C6: after the merge every field other than [mean_vector] and
    [std_vector] has the value it had in the metadata file read before,
    and the file holds the metadata so updated. *)
Theorem merge_preserves_other_fields (fs : files) (events : list io) (metadata : json)
    (Hrun : ComputeStats.main fs = (events, Ok metadata)) :
  exists (text : string) (old new : gmap string json),
    fs !! ComputeStats.metadata_path = Some text /\
    json_loads text = Ok (JObj old) /\
    metadata = JObj new /\
    (forall key : string,
       key <> "mean_vector" -> key <> "std_vector" -> new !! key = old !! key) /\
    replay fs events !! ComputeStats.metadata_path = Some (json_dumps (JObj new)).
Proof.
  apply compute_stats_main_inv in Hrun
    as (text & old & mean_vector & std_vector & Hfs & Hload & -> & ->).
  exists text, old, (<["std_vector" := std_vector]> (<["mean_vector" := mean_vector]> old)).
  repeat split; try assumption.
  - intros key Hmean Hstd. now rewrite !lookup_insert_ne.
  - unfold ComputeStats.persist. rewrite replay_truncate_append.
    apply lookup_insert_eq.
Qed.

(** C3 (as amended): the merge rewrites the metadata file in place.  The
    disk goes through exactly three states: the prior file, the file
    emptied by [open(..., 'w')], and the file holding the updated metadata
    in full; every other file is the same in all three. *)
Theorem metadata_written_in_place (fs : files) (events : list io) (metadata : json)
    (Hrun : ComputeStats.main fs = (events, Ok metadata)) :
  visible_states fs events
  = [fs;
     <[ComputeStats.metadata_path := ""]> fs;
     <[ComputeStats.metadata_path := json_dumps metadata]> fs].
Proof.
  apply compute_stats_main_inv in Hrun as (_ & _ & _ & _ & _ & _ & _ & ->).
  unfold ComputeStats.persist. apply visible_states_truncate_append.
Qed.

End ExportFacts.

(** ** Worked examples on the concrete collaborators *)

Module Examples.
Import Fixture.

(** With a cap of 1, what follows the first record does not matter, as
    long as it can be read. *)
Lemma cap_bounds_records_examined_witness :
  (forall X : list ndarray,
     TrainIsolationForest.load_training_data
       (disk [line_grid; line_single]) training_path 1 = Ok X ->
     (Z.of_nat (length X) <= Z.max 0 1)%Z) /\
  (forall (fs' : files) (content' : string),
     fs' !! training_path = Some content' ->
     firstn (Z.to_nat 1) (yielded (open_text (text_of [line_grid; line_single])))
       = firstn (Z.to_nat 1) (yielded (open_text content')) ->
     fetches_through (Z.to_nat 1) (open_text (text_of [line_grid; line_single])) ->
     fetches_through (Z.to_nat 1) (open_text content') ->
     TrainIsolationForest.load_training_data
       (disk [line_grid; line_single]) training_path 1
       = TrainIsolationForest.load_training_data fs' training_path 1).
Proof.
  apply (cap_bounds_records_examined 1 (disk [line_grid; line_single])
           training_path (text_of [line_grid; line_single])).
  reflexivity.
Defined.

(** C5 (as stated) fails: records beyond the first [k] are read.  The
    two sources below have the same first record and differ in the
    second only; with a cap of 1 the first load returns one vector and
    the second ends in [UnicodeDecodeError], raised by the [for]
    statement when it reads the bytes of the second record. *)
Lemma record_after_cap_is_read :
  (X ← TrainIsolationForest.load_training_data
         (disk [line_grid; line_single]) training_path 1;
   Ok (length X)) = Ok 1%nat /\
  TrainIsolationForest.load_training_data
    (disk [line_grid; line_invalid]) training_path 1
  = Raise UnicodeDecodeError.
Proof. split; vm_compute; reflexivity. Qed.

(** C4: a record that is valid JSON but not an object ends the training
    load with [AttributeError], although the statistics script skips the
    same record and keeps the two valid ones; an undecodable line is
    skipped by both. *)
Lemma non_object_record_aborts_training_load :
  TrainIsolationForest.load_training_data
      (disk [line_grid; line_list; line_single]) training_path 50000
    = Raise AttributeError /\
  (X ← ComputeStats.load_fingerprints (disk [line_grid; line_list; line_single]);
   Ok (length X)) = Ok 2%nat /\
  (X ← TrainIsolationForest.load_training_data
         (disk [line_grid; line_garbage; line_single]) training_path 50000;
   Ok (length X)) = Ok 2%nat.
Proof. repeat split; vm_compute; reflexivity. Qed.

(** A run with no option given. *)
Lemma default_examination_caps_witness :
  TrainIsolationForest.args_max_samples (TrainIsolationForest.parse_args no_options)
    = 50000%Z /\
  (forall (fs fs' : files) (content content' : string),
     fs !! TrainIsolationForest.args_input (TrainIsolationForest.parse_args no_options)
       = Some content ->
     fs' !! TrainIsolationForest.args_input (TrainIsolationForest.parse_args no_options)
       = Some content' ->
     firstn (Z.to_nat 50000) (yielded (open_text content))
       = firstn (Z.to_nat 50000) (yielded (open_text content')) ->
     fetches_through (Z.to_nat 50000) (open_text content) ->
     fetches_through (Z.to_nat 50000) (open_text content') ->
     TrainIsolationForest.main no_options fs = TrainIsolationForest.main no_options fs') /\
  (forall (fs fs' : files) (content content' : string),
     fs !! ComputeStats.input_path = Some content ->
     fs' !! ComputeStats.input_path = Some content' ->
     firstn (Z.to_nat 30000) (yielded (open_text content))
       = firstn (Z.to_nat 30000) (yielded (open_text content')) ->
     fetches_through (Z.to_nat 30000) (open_text content) ->
     fetches_through (Z.to_nat 30000) (open_text content') ->
     ComputeStats.load_fingerprints fs = ComputeStats.load_fingerprints fs').
Proof. apply (default_examination_caps no_options). reflexivity. Defined.

(** C9 (as stated) fails for the statistics script: of 30001 valid
    records it keeps 30000, where a cap of 50000 keeps them all, as the
    training loader does. *)
Lemma statistics_cap_is_not_50000 :
  (X ← ComputeStats.load_fingerprints (disk (repeat line_single (Z.to_nat 30001)));
   Ok (Z.of_nat (length X))) = Ok 30000%Z /\
  (X ← TrainIsolationForest.load_training_data
         (disk (repeat line_single (Z.to_nat 30001))) training_path
         (TrainIsolationForest.args_max_samples
            (TrainIsolationForest.parse_args no_options));
   Ok (Z.of_nat (length X))) = Ok 30001%Z.
Proof.
  assert (Hline : read_record (line_single ++ nl)
                  = Ok (Some (NumArr (1%Q :: repeat 0%Q 95)))) by reflexivity.
  unfold ComputeStats.load_fingerprints, TrainIsolationForest.load_training_data,
    read_text.
  change ComputeStats.input_path with training_path.
  rewrite disk_training_file. cbn [mbind outcome_bind].
  change (open_text (text_of (repeat line_single (Z.to_nat 30001))))
    with (read_lines (text_of (repeat line_single (Z.to_nat 30001)))).
  rewrite (read_lines_text_of_repeat line_single (Z.to_nat 30001)) by reflexivity.
  cbn [yielded ending].
  rewrite !(read_fingerprints_repeat _ _ _ _ Hline).
  cbn [mbind outcome_bind app].
  rewrite !repeat_length.
  split; f_equal; change (TrainIsolationForest.args_max_samples
                            (TrainIsolationForest.parse_args no_options))
                    with 50000%Z; lia.
Qed.

(** Five vectors scored by the stand-in model. *)
Lemma score_stats_ordered_witness :
  exists stats : score_stats,
    @TrainIsolationForest.compute_threshold_stats externals tt
      (repeat (NumArr []) 5) = Ok stats /\
    (stat_min stats <= stat_p50 stats)%Q /\
    (stat_p50 stats <= stat_p90 stats)%Q /\
    (stat_p90 stats <= stat_p95 stats)%Q /\
    (stat_p95 stats <= stat_p99 stats)%Q /\
    (stat_p99 stats <= stat_max stats)%Q.
Proof.
  eexists. split; [reflexivity|].
  apply (@score_stats_ordered externals tt (repeat (NumArr []) 5)). reflexivity.
Defined.

(** A training run over one hundred valid records. *)
Lemma threshold_is_p95_of_negated_scores_witness :
  exists (X : list ndarray) (m : model) (raw : list Q) (stats : score_stats)
         (metadata : gmap string json),
    score_samples m X = Ok raw /\
    stat_min stats = np_min (hd 0%Q (map Qopp raw)) (tl (map Qopp raw)) /\
    stat_max stats = np_max (hd 0%Q (map Qopp raw)) (tl (map Qopp raw)) /\
    stat_mean stats = np_mean (map Qopp raw) /\
    stat_p50 stats = np_percentile (map Qopp raw) 50 /\
    stat_p90 stats = np_percentile (map Qopp raw) 90 /\
    stat_p95 stats = np_percentile (map Qopp raw) 95 /\
    stat_p99 stats = np_percentile (map Qopp raw) 99 /\
    metadata !! "score_stats" = Some (stats_json stats) /\
    metadata !! "threshold_suggestion" = Some (JNum (stat_p95 stats)) /\
    metadata !! "threshold_suggestion"
      = Some (JNum (np_percentile (map Qopp raw) 95)) /\
    replay (disk (repeat line_single 100))
           (fst (TrainIsolationForest.main no_options (disk (repeat line_single 100))))
      !! with_suffix_json
           (TrainIsolationForest.args_output
              (TrainIsolationForest.parse_args no_options))
    = Some (json_dumps (JObj metadata)).
Proof.
  apply (threshold_is_p95_of_negated_scores no_options
           (disk (repeat line_single 100))).
  vm_compute. reflexivity.
Defined.

(** The statistics script run on a disk that holds a metadata file. *)
Lemma merge_preserves_other_fields_witness :
  exists (text : string) (old new : gmap string json),
    disk [line_grid] !! ComputeStats.metadata_path = Some text /\
    json_loads text = Ok (JObj old) /\
    merged_metadata = JObj new /\
    (forall key : string,
       key <> "mean_vector" -> key <> "std_vector" -> new !! key = old !! key) /\
    replay (disk [line_grid]) (ComputeStats.persist merged_metadata)
      !! ComputeStats.metadata_path
    = Some (json_dumps (JObj new)).
Proof.
  apply (merge_preserves_other_fields (disk [line_grid])
           (ComputeStats.persist merged_metadata) merged_metadata).
  vm_compute. reflexivity.
Defined.

(** The three disk states of that run. *)
Lemma metadata_written_in_place_witness :
  visible_states (disk [line_grid]) (ComputeStats.persist merged_metadata)
  = [disk [line_grid];
     <[ComputeStats.metadata_path := ""]> (disk [line_grid]);
     <[ComputeStats.metadata_path := json_dumps merged_metadata]> (disk [line_grid])].
Proof.
  apply (metadata_written_in_place (disk [line_grid])
           (ComputeStats.persist merged_metadata) merged_metadata).
  vm_compute. reflexivity.
Defined.

(** C3 (as stated) fails: between the opening of the metadata file and
    the end of the write a reader finds it empty, neither the prior
    metadata nor the updated one. *)
Lemma metadata_not_written_atomically :
  ComputeStats.main (disk [line_grid])
    = (ComputeStats.persist merged_metadata, Ok merged_metadata) /\
  ~ written_atomically (disk [line_grid]) (ComputeStats.persist merged_metadata)
      ComputeStats.metadata_path.
Proof.
  split; [vm_compute; reflexivity|].
  intros Hatomic.
  specialize (Hatomic (<[ComputeStats.metadata_path := ""]> (disk [line_grid]))).
  destruct Hatomic as [Hold|Hnew].
  - right. left. reflexivity.
  - vm_compute in Hold. discriminate.
  - vm_compute in Hnew. discriminate.
Qed.

End Examples.

(** * Further properties of the two scripts *)

(** ** Ingestion *)

Section IngestionContribution.
Context `{Externals}.

Lemma read_record_len (line : string) (flat : ndarray) :
  read_record line = Ok (Some flat) -> np_len flat = 96%nat.
Proof.
  unfold read_record. intros Hr.
  destruct (json_loads (strip line)) as [record|e]; [|discriminate].
  cbn [mbind outcome_bind] in Hr.
  destruct (dict_get record "vectors" (JArr [])) as [block|e]; [|discriminate].
  cbn [mbind outcome_bind] in Hr. unfold vectorize in Hr.
  destruct (truthy block); [|discriminate].
  destruct (np_array_flatten block) as [arr|e]; [|discriminate].
  cbn [mbind outcome_bind] in Hr. injection Hr as <-.
  apply pad_or_truncate_len.
Qed.

Lemma kept_vectors_len (lines : list string) :
  Forall (fun flat => np_len flat = 96%nat) (kept_vectors lines).
Proof.
  unfold kept_vectors. induction lines as [|line rest IH]; cbn [omap list_omap].
  - constructor.
  - unfold kept_vector at 1.
    destruct (read_record line) as [[flat|]|e] eqn:Hr; cbn; try exact IH.
    constructor; [now apply (read_record_len line)|exact IH].
Qed.

Lemma kept_vectors_cons (line : string) (rest : list string) :
  kept_vectors (line :: rest) =
  match read_record line with
  | Ok (Some flat) => flat :: kept_vectors rest
  | _ => kept_vectors rest
  end.
Proof.
  unfold kept_vectors. cbn [omap list_omap]. unfold kept_vector at 1.
  now destruct (read_record line) as [[flat|]|e].
Qed.

(** Whenever the loop returns, it returns the contributions of the lines
    it examined, in their order. *)
Lemma read_fingerprints_ok (caught : exn -> bool) (cap : Z) (last : stream_end)
    (lines : list string) :
  forall (i : Z) (vectors X : list ndarray),
    read_fingerprints caught cap i lines last vectors = Ok X ->
    X = (vectors ++ kept_vectors (firstn (Z.to_nat (cap - i)) lines))%list.
Proof.
  induction lines as [|line rest IH]; intros i vectors X HX;
    cbn [read_fingerprints] in HX.
  - destruct last; [|discriminate].
    injection HX as <-. rewrite firstn_nil. cbn. now rewrite app_nil_r.
  - destruct (Z.geb_spec i cap) as [Hge|Hlt].
    + injection HX as <-. replace (Z.to_nat (cap - i)) with 0%nat by lia.
      cbn. now rewrite app_nil_r.
    + replace (Z.to_nat (cap - i)) with (S (Z.to_nat (cap - (i + 1)))) by lia.
      cbn [firstn]. rewrite kept_vectors_cons.
      destruct (read_record line) as [[flat|]|e].
      * apply IH in HX. now rewrite <- app_assoc in HX.
      * now apply IH in HX.
      * destruct (caught e); [|discriminate]. now apply IH in HX.
Qed.


(** With the bare [except:], what the loop does is decided by the lines
    the iteration delivers: it stops at the cap, or it goes through all
    of them and ends as the iteration ends. *)
Lemma read_fingerprints_catch_all_spec (cap : Z) (last : stream_end)
    (lines : list string) :
  forall (i : Z) (vectors : list ndarray),
    read_fingerprints (fun _ => true) cap i lines last vectors =
    if (Z.to_nat (cap - i) <? length lines)%nat
    then Ok (vectors ++ kept_vectors (firstn (Z.to_nat (cap - i)) lines))%list
    else
      match last with
      | Exhausted => Ok (vectors ++ kept_vectors lines)%list
      | Undecodable => Raise UnicodeDecodeError
      end.
Proof.
  induction lines as [|line rest IH]; intros i vectors; cbn [read_fingerprints].
  - cbn [length]. destruct (Nat.ltb_spec (Z.to_nat (cap - i)) 0) as [Hlt|_]; [lia|].
    destruct last; [|reflexivity]. cbn. now rewrite app_nil_r.
  - destruct (Z.geb_spec i cap) as [Hge|Hlt].
    + replace (Z.to_nat (cap - i)) with 0%nat by lia. cbn. now rewrite app_nil_r.
    + replace (Z.to_nat (cap - i)) with (S (Z.to_nat (cap - (i + 1)))) by lia.
      cbn [length firstn]. rewrite !kept_vectors_cons.
      change (S ?a <? S ?b)%nat with (a <? b)%nat.
      destruct (read_record line) as [[flat|]|e]; rewrite IH;
        destruct (Z.to_nat (cap - (i + 1)) <? length rest)%nat;
        try destruct last; try reflexivity; now rewrite <- app_assoc.
Qed.

(** A loop that reaches the end of the lines before the cap ends as the
    iteration ends: it cannot return when the next fetch fails. *)
Lemma read_fingerprints_undecodable (caught : exn -> bool) (cap : Z)
    (lines : list string) :
  forall (i : Z) (vectors X : list ndarray),
    (length lines <= Z.to_nat (cap - i))%nat ->
    read_fingerprints caught cap i lines Undecodable vectors <> Ok X.
Proof.
  induction lines as [|line rest IH]; intros i vectors X Hlen;
    cbn [read_fingerprints]; [discriminate|].
  cbn [length] in Hlen.
  destruct (Z.geb_spec i cap) as [Hge|Hlt]; [lia|].
  destruct (read_record line) as [[flat|]|e]; try (apply IH; lia).
  destruct (caught e); [apply IH; lia|discriminate].
Qed.

(** X1: every vector of a dataset that [load_training_data] returns has
    exactly 96 entries. *)
Theorem training_vectors_have_96_entries (fs : files) (path : string) (k : Z)
    (X : list ndarray)
    (Hload : TrainIsolationForest.load_training_data fs path k = Ok X) :
  Forall (fun flat => np_len flat = 96%nat) X.
Proof.
  unfold TrainIsolationForest.load_training_data in Hload.
  destruct (read_text fs path) as [content|e]; [|discriminate].
  cbn [mbind outcome_bind] in Hload.
  apply read_fingerprints_ok in Hload. subst X. cbn [app].
  apply kept_vectors_len.
Qed.


(** X3: when [load_training_data] returns, its dataset is made, in
    order, of the vectors of those among the first [max_samples] lines
    the iteration delivers that contribute one: the dataset the
    statistics loop builds from the same lines. *)
Theorem training_loader_keeps_valid_records (fs : files) (path : string) (k : Z)
    (X : list ndarray)
    (Hload : TrainIsolationForest.load_training_data fs path k = Ok X) :
  exists content : string,
    fs !! path = Some content /\
    X = kept_vectors (firstn (Z.to_nat k) (yielded (open_text content))) /\
    read_fingerprints ComputeStats.caught k 0 (yielded (open_text content))
      (ending (open_text content)) [] = Ok X.
Proof.
  unfold TrainIsolationForest.load_training_data, read_text in Hload.
  destruct (fs !! path) as [content|]; [|discriminate].
  cbn [mbind outcome_bind] in Hload.
  pose proof (read_fingerprints_ok _ _ _ _ _ _ _ Hload) as HX.
  rewrite Z.sub_0_r in HX. cbn [app] in HX.
  exists content. split; [reflexivity|]. split; [exact HX|].
  unfold ComputeStats.caught. rewrite read_fingerprints_catch_all_spec.
  rewrite Z.sub_0_r. cbn [app].
  destruct (Nat.ltb_spec (Z.to_nat k) (length (yielded (open_text content))))
    as [Hlt|Hge]; [now rewrite HX|].
  rewrite firstn_all2 in HX by lia.
  destruct (ending (open_text content)) eqn:Hend; [now rewrite HX|].
  exfalso.
  apply (read_fingerprints_undecodable TrainIsolationForest.caught k
           (yielded (open_text content)) 0 [] X); [lia|exact Hload].
Qed.


End IngestionContribution.

(** ** The training run *)

Section TrainingRun.
Context `{Externals}.



(** A dataset has at most as many vectors as the source has lines. *)
Lemma kept_vectors_length (lines : list string) :
  (length (kept_vectors lines) <= length lines)%nat.
Proof.
  induction lines as [|line rest IH]; [cbn; lia|].
  rewrite kept_vectors_cons. cbn [length].
  destruct (read_record line) as [[flat|]|e]; cbn [length]; lia.
Qed.

(** X7: a source of which the iteration delivers fewer than 100 lines,
    or a cap below 100, never yields a model: [main] writes nothing and
    does not exit with status 0 (it exits with status 1, or with the
    exception of the load). *)
Theorem small_source_never_exports (c : TrainIsolationForest.cli) (fs : files)
    (content : string)
    (Hfs : fs !! TrainIsolationForest.args_input (TrainIsolationForest.parse_args c)
           = Some content)
    (Hsmall : (length (yielded (open_text content)) < 100)%nat \/
              (TrainIsolationForest.args_max_samples
                 (TrainIsolationForest.parse_args c) < 100)%Z) :
  exists result : outcome Z,
    TrainIsolationForest.main c fs = ([], result) /\ result <> Ok 0%Z.
Proof.
  unfold TrainIsolationForest.main.
  destruct (TrainIsolationForest.load_training_data _ _ _) as [X|e] eqn:HX.
  2: { exists (Raise e). split; [reflexivity|discriminate]. }
  assert (Hfew : (length X < 100)%nat).
  { unfold TrainIsolationForest.load_training_data, read_text in HX.
    rewrite Hfs in HX. cbn [mbind outcome_bind] in HX.
    pose proof (read_fingerprints_size _ _ _ _ _ _ _ HX) as Hcap.
    apply read_fingerprints_ok in HX. cbn [app] in HX.
    pose proof (kept_vectors_length
                  (firstn (Z.to_nat
                             (TrainIsolationForest.args_max_samples
                                (TrainIsolationForest.parse_args c) - 0))
                          (yielded (open_text content)))) as Hlen.
    rewrite <- HX, length_firstn in Hlen. cbn [length] in Hcap.
    destruct Hsmall as [Hlines|Hk]; lia. }
  destruct (Nat.ltb_spec (length X) 100) as [_|Hge]; [|lia].
  exists (Ok 1%Z). split; [reflexivity|discriminate].
Qed.

(** X8: the metadata that a successful run exports records the number of
    vectors loaded as [training_samples]; that number is at least 100 and
    at most [max_samples]; [input_dims] is 96, the length of every
    vector the model was trained on; and [contamination] is the value
    the run was given. *)
Theorem exported_metadata_describes_dataset (c : TrainIsolationForest.cli)
    (fs : files) (events : list io)
    (Hrun : TrainIsolationForest.main c fs = (events, Ok 0%Z)) :
  exists (X : list ndarray) (metadata : gmap string json),
    TrainIsolationForest.load_training_data fs
      (TrainIsolationForest.args_input (TrainIsolationForest.parse_args c))
      (TrainIsolationForest.args_max_samples (TrainIsolationForest.parse_args c))
      = Ok X /\
    replay fs events
      !! with_suffix_json
           (TrainIsolationForest.args_output (TrainIsolationForest.parse_args c))
      = Some (json_dumps (JObj metadata)) /\
    metadata !! "training_samples" = Some (JNum (inject_Z (Z.of_nat (length X)))) /\
    (100 <= Z.of_nat (length X)
         <= TrainIsolationForest.args_max_samples (TrainIsolationForest.parse_args c))%Z /\
    metadata !! "input_dims" = Some (JNum 96) /\
    Forall (fun flat => np_len flat = 96%nat) X /\
    metadata !! "contamination"
      = Some (JNum (TrainIsolationForest.args_contamination
                      (TrainIsolationForest.parse_args c))).
Proof.
  apply main_success_inv in Hrun as (X & m & stats & HX & H100 & _ & _ & ->).
  exists X, (TrainIsolationForest.build_metadata
               (TrainIsolationForest.parse_args c) X stats).
  split; [exact HX|]. split; [apply export_model_metadata_file|].
  split; [reflexivity|]. split.
  - unfold TrainIsolationForest.load_training_data in HX.
    destruct (read_text fs _) as [text|e]; [|discriminate].
    cbn [mbind outcome_bind] in HX.
    apply read_fingerprints_size in HX. cbn [length] in HX. lia.
  - split; [reflexivity|]. split; [|reflexivity].
    unfold TrainIsolationForest.load_training_data in HX.
    destruct (read_text fs _) as [text|e]; [|discriminate].
    cbn [mbind outcome_bind] in HX.
    apply read_fingerprints_ok in HX. subst X. apply kept_vectors_len.
Qed.

End TrainingRun.

(** ** The statistics run *)

Section StatisticsRun.
Context `{Externals}.

(** The stages of a run of the statistics script that reaches the
    write. *)
Lemma compute_stats_run_inv (fs : files) (events : list io) (metadata : json) :
  ComputeStats.main fs = (events, Ok metadata) ->
  exists (X : list ndarray) (mean_vector std_vector : json),
    ComputeStats.load_fingerprints fs = Ok X /\
    mean_axis0_tolist X = Ok mean_vector /\
    std_axis0_tolist X = Ok std_vector /\
    ComputeStats.merge fs mean_vector std_vector = Ok metadata /\
    events = ComputeStats.persist metadata.
Proof.
  unfold ComputeStats.main. intros Hrun.
  destruct (ComputeStats.load_fingerprints fs) as [X|e]; [|discriminate].
  cbn [mbind outcome_bind] in Hrun.
  destruct (mean_axis0_tolist X) as [mean_vector|e] eqn:Hmean; [|discriminate].
  cbn [mbind outcome_bind] in Hrun.
  destruct (std_axis0_tolist X) as [std_vector|e] eqn:Hstd; [|discriminate].
  cbn [mbind outcome_bind] in Hrun.
  destruct (ComputeStats.merge fs mean_vector std_vector) as [md|e] eqn:Hmerge;
    [|discriminate].
  injection Hrun as <- <-. now exists X, mean_vector, std_vector.
Qed.

(** X10: the statistics script never creates the metadata file: when the
    file is missing the run ends in an exception and nothing is
    written. *)
Theorem statistics_need_existing_metadata (fs : files)
    (Hmissing : fs !! ComputeStats.metadata_path = None) :
  exists e : exn, ComputeStats.main fs = ([], Raise e).
Proof.
  unfold ComputeStats.main.
  destruct (ComputeStats.load_fingerprints fs) as [X|e]; [|now exists e].
  cbn [mbind outcome_bind].
  destruct (mean_axis0_tolist X) as [mean_vector|e]; [|now exists e].
  cbn [mbind outcome_bind].
  destruct (std_axis0_tolist X) as [std_vector|e]; [|now exists e].
  cbn [mbind outcome_bind].
  unfold ComputeStats.merge, read_text. rewrite Hmissing.
  now exists FileNotFoundError.
Qed.

(** X11: a successful statistics run changes no file but the metadata
    file; in particular the training data it read is left as it was. *)
Theorem statistics_touch_only_metadata_file (fs : files) (events : list io)
    (metadata : json)
    (Hrun : ComputeStats.main fs = (events, Ok metadata)) :
  (forall path : string,
     path <> ComputeStats.metadata_path -> replay fs events !! path = fs !! path) /\
  replay fs events !! ComputeStats.input_path = fs !! ComputeStats.input_path.
Proof.
  apply compute_stats_run_inv in Hrun as (_ & _ & _ & _ & _ & _ & _ & ->).
  unfold ComputeStats.persist. rewrite replay_truncate_append.
  split.
  - intros path Hne. now rewrite lookup_insert_ne by (intros Heq; now apply Hne).
  - now rewrite lookup_insert_ne by discriminate.
Qed.

(** X12: running the statistics script again on the disk it left, with a
    JSON codec that reads back what it wrote, performs the same write
    and leaves the same metadata: the merge is idempotent. *)
Theorem statistics_run_idempotent (fs : files) (events : list io) (metadata : json)
    (Hrun : ComputeStats.main fs = (events, Ok metadata))
    (Hcodec : json_loads (json_dumps metadata) = Ok metadata) :
  ComputeStats.main (replay fs events) = (events, Ok metadata) /\
  replay (replay fs events) events = replay fs events.
Proof.
  apply compute_stats_run_inv in Hrun
    as (X & mean_vector & std_vector & HX & Hmean & Hstd & Hmerge & ->).
  unfold ComputeStats.persist. rewrite !replay_truncate_append.
  split; [|apply insert_insert_eq].
  assert (Hmd : exists old : gmap string json,
             metadata = JObj (<["std_vector" := std_vector]>
                                (<["mean_vector" := mean_vector]> old))).
  { unfold ComputeStats.merge in Hmerge.
    destruct (read_text fs ComputeStats.metadata_path) as [text|e]; [|discriminate].
    cbn [mbind outcome_bind] in Hmerge.
    destruct (json_loads text) as [[| | | | |old]|e]; try discriminate.
    cbn [mbind outcome_bind dict_set] in Hmerge.
    injection Hmerge as <-. now exists old. }
  destruct Hmd as [old ->].
  unfold ComputeStats.main.
  assert (HX' : ComputeStats.load_fingerprints
                  (<[ComputeStats.metadata_path :=
                       json_dumps (JObj (<["std_vector" := std_vector]>
                                           (<["mean_vector" := mean_vector]> old)))]> fs)
                = Ok X).
  { rewrite <- HX. unfold ComputeStats.load_fingerprints, read_text.
    now rewrite lookup_insert_ne by discriminate. }
  rewrite HX'. cbn [mbind outcome_bind]. rewrite Hmean. cbn [mbind outcome_bind].
  rewrite Hstd. cbn [mbind outcome_bind].
  unfold ComputeStats.merge, read_text. rewrite lookup_insert_eq.
  cbn [mbind outcome_bind]. rewrite Hcodec. cbn [mbind outcome_bind dict_set].
  rewrite (insert_insert_ne _ "mean_vector" "std_vector") by discriminate.
  now rewrite !insert_insert_eq.
Qed.

End StatisticsRun.

(** ** More on the score statistics *)

Section ScoreSummaries.
Local Open Scope Q_scope.

Lemma np_min_In (x : Q) (xs : list Q) : In (np_min x xs) (x :: xs).
Proof.
  unfold np_min. induction xs as [|z rest IH]; cbn [fold_right].
  - now left.
  - unfold Qmin_b at 1. destruct (Qle_bool z (fold_right Qmin_b x rest)).
    + right. now left.
    + destruct IH as [IH|IH]; [now left|right; now right].
Qed.

Lemma np_max_In (x : Q) (xs : list Q) : In (np_max x xs) (x :: xs).
Proof.
  unfold np_max. induction xs as [|z rest IH]; cbn [fold_right].
  - now left.
  - unfold Qmax_b at 1. destruct (Qle_bool z (fold_right Qmax_b x rest)).
    + destruct IH as [IH|IH]; [now left|right; now right].
    + right. now left.
Qed.

(** Negating every score turns the smallest into the largest. *)
Lemma np_max_opp (x : Q) (xs : list Q) :
  np_max (- x) (map Qopp xs) == - np_min x xs.
Proof.
  apply Qle_antisym.
  - pose proof (np_max_In (- x) (map Qopp xs)) as Hin.
    change (- x :: map Qopp xs) with (map Qopp (x :: xs)) in Hin.
    apply in_map_iff in Hin as (y & <- & Hy).
    apply Qopp_le_compat. now apply np_min_le.
  - apply np_max_ge.
    change (- x :: map Qopp xs) with (map Qopp (x :: xs)).
    apply in_map. apply np_min_In.
Qed.

Lemma np_min_opp (x : Q) (xs : list Q) :
  np_min (- x) (map Qopp xs) == - np_max x xs.
Proof.
  apply Qle_antisym.
  - apply np_min_le.
    change (- x :: map Qopp xs) with (map Qopp (x :: xs)).
    apply in_map. apply np_max_In.
  - pose proof (np_min_In (- x) (map Qopp xs)) as Hin.
    change (- x :: map Qopp xs) with (map Qopp (x :: xs)) in Hin.
    apply in_map_iff in Hin as (y & <- & Hy).
    apply Qopp_le_compat. now apply np_max_ge.
Qed.

End ScoreSummaries.

Section CalibrationSummaries.
Context `{Externals}.

(** X14: the sign change swaps the ends of the score range: the largest
    anomaly score reported is the negated smallest raw score of the
    model, and the smallest reported is the negated largest raw score. *)
Theorem negation_swaps_score_range (m : model) (X : list ndarray)
    (stats : score_stats) (r : Q) (rs : list Q)
    (Hraw : score_samples m X = Ok (r :: rs))
    (Hstats : TrainIsolationForest.compute_threshold_stats m X = Ok stats) :
  (stat_max stats == - np_min r rs)%Q /\ (stat_min stats == - np_max r rs)%Q.
Proof.
  unfold TrainIsolationForest.compute_threshold_stats in Hstats.
  rewrite Hraw in Hstats. cbn [mbind outcome_bind map] in Hstats.
  injection Hstats as <-. cbn [stat_max stat_min].
  split; [apply np_max_opp|apply np_min_opp].
Qed.

End CalibrationSummaries.

(** ** Worked examples for the further properties *)

Module MoreExamples.
Import Fixture.

(** A source with one undecodable line between two valid records. *)
Lemma training_vectors_have_96_entries_witness :
  exists X : list ndarray,
    TrainIsolationForest.load_training_data
      (disk [line_grid; line_garbage; line_single]) training_path 50000 = Ok X /\
    Forall (fun flat => np_len flat = 96%nat) X.
Proof.
  eexists. split; [reflexivity|].
  apply (training_vectors_have_96_entries
           (disk [line_grid; line_garbage; line_single]) training_path 50000).
  reflexivity.
Defined.

Lemma training_loader_keeps_valid_records_witness :
  exists X : list ndarray,
    TrainIsolationForest.load_training_data
      (disk [line_grid; line_garbage; line_single]) training_path 50000 = Ok X /\
    exists text : string,
      disk [line_grid; line_garbage; line_single] !! training_path = Some text /\
      X = kept_vectors (firstn (Z.to_nat 50000) (yielded (open_text text))) /\
      read_fingerprints ComputeStats.caught 50000 0 (yielded (open_text text))
        (ending (open_text text)) [] = Ok X.
Proof.
  eexists. split; [reflexivity|].
  apply (training_loader_keeps_valid_records
           (disk [line_grid; line_garbage; line_single]) training_path 50000).
  reflexivity.
Defined.


(** Two valid records are not enough to train on. *)
Lemma small_source_never_exports_witness :
  exists result : outcome Z,
    TrainIsolationForest.main no_options (disk [line_grid; line_single])
    = ([], result) /\ result <> Ok 0%Z.
Proof.
  apply (small_source_never_exports no_options (disk [line_grid; line_single])
           (text_of [line_grid; line_single])).
  - reflexivity.
  - left. vm_compute. lia.
Defined.

(** A training run over one hundred valid records. *)
Lemma exported_metadata_describes_dataset_witness :
  exists (X : list ndarray) (metadata : gmap string json),
    TrainIsolationForest.load_training_data (disk (repeat line_single 100))
      (TrainIsolationForest.args_input (TrainIsolationForest.parse_args no_options))
      (TrainIsolationForest.args_max_samples
         (TrainIsolationForest.parse_args no_options))
      = Ok X /\
    replay (disk (repeat line_single 100))
           (fst (TrainIsolationForest.main no_options (disk (repeat line_single 100))))
      !! with_suffix_json
           (TrainIsolationForest.args_output
              (TrainIsolationForest.parse_args no_options))
      = Some (json_dumps (JObj metadata)) /\
    metadata !! "training_samples" = Some (JNum (inject_Z (Z.of_nat (length X)))) /\
    (100 <= Z.of_nat (length X)
         <= TrainIsolationForest.args_max_samples
              (TrainIsolationForest.parse_args no_options))%Z /\
    metadata !! "input_dims" = Some (JNum 96) /\
    Forall (fun flat => np_len flat = 96%nat) X /\
    metadata !! "contamination"
      = Some (JNum (TrainIsolationForest.args_contamination
                      (TrainIsolationForest.parse_args no_options))).
Proof.
  apply (exported_metadata_describes_dataset no_options
           (disk (repeat line_single 100))).
  vm_compute. reflexivity.
Defined.

(** Training data, but no metadata file. *)
Lemma statistics_need_existing_metadata_witness :
  exists e : exn,
    ComputeStats.main ({[ training_path := text_of [line_grid] ]} : files)
    = ([], Raise e).
Proof.
  apply (statistics_need_existing_metadata
           ({[ training_path := text_of [line_grid] ]} : files)).
  reflexivity.
Defined.

Lemma statistics_touch_only_metadata_file_witness :
  (forall path : string,
     path <> ComputeStats.metadata_path ->
     replay (disk [line_grid]) (ComputeStats.persist merged_metadata) !! path
     = disk [line_grid] !! path) /\
  replay (disk [line_grid]) (ComputeStats.persist merged_metadata)
    !! ComputeStats.input_path
  = disk [line_grid] !! ComputeStats.input_path.
Proof.
  apply (statistics_touch_only_metadata_file (disk [line_grid])
           (ComputeStats.persist merged_metadata) merged_metadata).
  vm_compute. reflexivity.
Defined.

(** The second run, with the decoder that reads the first run's text. *)
Lemma statistics_run_idempotent_witness :
  @ComputeStats.main CodecFixture.externals
    (replay (disk [line_grid])
       (@ComputeStats.persist CodecFixture.externals merged_metadata))
  = (@ComputeStats.persist CodecFixture.externals merged_metadata,
     Ok merged_metadata) /\
  replay (replay (disk [line_grid])
            (@ComputeStats.persist CodecFixture.externals merged_metadata))
         (@ComputeStats.persist CodecFixture.externals merged_metadata)
  = replay (disk [line_grid])
      (@ComputeStats.persist CodecFixture.externals merged_metadata).
Proof.
  apply (@statistics_run_idempotent CodecFixture.externals (disk [line_grid])
           (@ComputeStats.persist CodecFixture.externals merged_metadata)
           merged_metadata).
  - vm_compute. reflexivity.
  - vm_compute. reflexivity.
Defined.

(** Raw scores -1/100, -2/100, -3/100. *)
Lemma negation_swaps_score_range_witness :
  exists stats : score_stats,
    @TrainIsolationForest.compute_threshold_stats externals tt
      (repeat (NumArr []) 3) = Ok stats /\
    (stat_max stats == - np_min (- (1 # 100)) [- (2 # 100); - (3 # 100)])%Q /\
    (stat_min stats == - np_max (- (1 # 100)) [- (2 # 100); - (3 # 100)])%Q.
Proof.
  eexists. split; [reflexivity|].
  apply (@negation_swaps_score_range externals tt (repeat (NumArr []) 3)).
  - reflexivity.
  - reflexivity.
Defined.

End MoreExamples.
